(** Verification of the vloex Python SDK: the webhook receiver of
  examples/github-release-with-webhook.py (verify_webhook_signature and
  handle_vloex_webhook) and the client of vloex/client.py (Vloex.__init__,
  VideoResource.from_journey, Vloex._request).

  Python strings are modelled by their UTF-8 encoding: a Rocq [string]
  whose characters are the bytes of the encoded text, so [s.encode('utf-8')]
  is the identity on the model.  The byte '=' (0x3D) never occurs inside a
  multi-byte UTF-8 sequence, so splitting on '=' byte-wise agrees with
  Python's character-wise split. *)

From Stdlib Require Import ZArith List String Ascii Bool QArith Qabs Lia.
Import ListNotations.
Open Scope Z_scope.
Open Scope string_scope.
Open Scope list_scope.

(** * Python runtime helpers *)
Module Py.

(** Exceptions the modelled code can raise; the last two are Werkzeug's
    HTTP exceptions raised by Flask's [request.get_json()]. *)
Inductive exc :=
| ValueError
| OverflowError
| TypeError
| IndexError
| AttributeError
| BadRequest
| UnsupportedMediaType.

(** Result of a Python computation: a value, or an exception in flight. *)
Inductive result (A : Type) :=
| Ok (a : A)
| Raise (e : exc).
Arguments Ok {A} a.
Arguments Raise {A} e.

Definition bind {A B} (m : result A) (k : A -> result B) : result B :=
  match m with
  | Ok a => k a
  | Raise e => Raise e
  end.

Notation "x <- m ;; k" := (bind m (fun x => k))
  (at level 61, m at next level, right associativity).

(** Byte value of a character of the UTF-8 model. *)
Definition byte_of (c : ascii) : Z := Z.of_N (N_of_ascii c).

Definition bytes_of (s : string) : list Z := map byte_of (list_ascii_of_string s).

(** [c in s] for a one-character [c]. *)
Fixpoint contains (c : ascii) (s : string) : bool :=
  match s with
  | EmptyString => false
  | String d rest => Ascii.eqb c d || contains c rest
  end.

(** [s.split(sep)] for a one-character separator: split at every
    occurrence, keeping empty fields. *)
Fixpoint split (sep : ascii) (s : string) : list string :=
  match s with
  | EmptyString => [EmptyString]
  | String c rest =>
      let fields := split sep rest in
      if Ascii.eqb c sep then EmptyString :: fields
      else match fields with
           | f :: fs => String c f :: fs
           | [] => [String c EmptyString]
           end
  end.

(** [l[i]] for a non-negative index. *)
Definition index {A} (l : list A) (i : nat) : result A :=
  match nth_error l i with
  | Some x => Ok x
  | None => Raise IndexError
  end.

(** ** [int(s)] on a [str], as CPython 3.11 computes it *)

Local Open Scope Z_scope.

(** The code points of the UTF-8 text [s]; a byte that does not start a
    well-formed sequence stands for the code point -1 (no [str] encodes
    to it). *)
Definition is_cont_byte (c : ascii) : bool := Z.eqb (Z.land (byte_of c) 192) 128.
Definition cont_bits (c : ascii) : Z := Z.land (byte_of c) 63.

Fixpoint code_points (s : string) : list Z :=
  match s with
  | EmptyString => []
  | String c rest =>
      let b := byte_of c in
      if b <? 128 then b :: code_points rest
      else if (192 <=? b) && (b <? 224) then
        match rest with
        | String c1 rest1 =>
            if is_cont_byte c1 then
              Z.lor (Z.shiftl (Z.land b 31) 6) (cont_bits c1) :: code_points rest1
            else -1 :: code_points rest
        | EmptyString => [-1]
        end
      else if (224 <=? b) && (b <? 240) then
        match rest with
        | String c1 (String c2 rest2) =>
            if is_cont_byte c1 && is_cont_byte c2 then
              Z.lor (Z.shiftl (Z.land b 15) 12)
                    (Z.lor (Z.shiftl (cont_bits c1) 6) (cont_bits c2)) :: code_points rest2
            else -1 :: code_points rest
        | _ => -1 :: code_points rest
        end
      else if (240 <=? b) && (b <? 248) then
        match rest with
        | String c1 (String c2 (String c3 rest3)) =>
            if is_cont_byte c1 && is_cont_byte c2 && is_cont_byte c3 then
              Z.lor (Z.shiftl (Z.land b 7) 18)
                    (Z.lor (Z.shiftl (cont_bits c1) 12)
                           (Z.lor (Z.shiftl (cont_bits c2) 6) (cont_bits c3)))
                :: code_points rest3
            else -1 :: code_points rest
        | _ => -1 :: code_points rest
        end
      else -1 :: code_points rest
  end.

(** The non-ASCII code points for which [Py_UNICODE_ISSPACE] holds
    (Unicode 14.0, CPython 3.11). *)
Definition unicode_space (cp : Z) : bool :=
  existsb (Z.eqb cp)
    [0x85; 0xA0; 0x1680; 0x2000; 0x2001; 0x2002; 0x2003; 0x2004; 0x2005; 0x2006;
     0x2007; 0x2008; 0x2009; 0x200A; 0x2028; 0x2029; 0x202F; 0x205F; 0x3000].

(** The zeros of the 66 runs of decimal digits (general category Nd) of
    Unicode 14.0: each run holds the digits 0 to 9 in order. *)
Definition decimal_zeros : list Z :=
  [0x30; 0x660; 0x6F0; 0x7C0; 0x966; 0x9E6; 0xA66; 0xAE6; 0xB66; 0xBE6; 0xC66;
   0xCE6; 0xD66; 0xDE6; 0xE50; 0xED0; 0xF20; 0x1040; 0x1090; 0x17E0; 0x1810;
   0x1946; 0x19D0; 0x1A80; 0x1A90; 0x1B50; 0x1BB0; 0x1C40; 0x1C50; 0xA620;
   0xA8D0; 0xA900; 0xA9D0; 0xA9F0; 0xAA50; 0xABF0; 0xFF10; 0x104A0; 0x10D30;
   0x11066; 0x110F0; 0x11136; 0x111D0; 0x112F0; 0x11450; 0x114D0; 0x11650;
   0x116C0; 0x11730; 0x118E0; 0x11950; 0x11C50; 0x11D50; 0x11DA0; 0x16A60;
   0x16AC0; 0x16B50; 0x1D7CE; 0x1D7D8; 0x1D7E2; 0x1D7EC; 0x1D7F6; 0x1E140;
   0x1E2F0; 0x1E950; 0x1FBF0].

(** [Py_UNICODE_TODECIMAL(cp)], [None] for -1. *)
Definition to_decimal (cp : Z) : option Z :=
  match find (fun z => (z <=? cp) && (cp <? z + 10)) decimal_zeros with
  | Some z => Some (cp - z)
  | None => None
  end.

(** [_PyUnicode_TransformDecimalAndSpaceToASCII]: code points below 127
    are kept, other white space becomes ' ', other decimal digits their
    ASCII digit; any other code point becomes '?', which ends the text. *)
Fixpoint to_ascii_text (cps : list Z) : string :=
  match cps with
  | [] => EmptyString
  | cp :: rest =>
      if (0 <=? cp) && (cp <? 127) then String (ascii_of_N (Z.to_N cp)) (to_ascii_text rest)
      else if unicode_space cp then String " " (to_ascii_text rest)
      else match to_decimal cp with
           | Some d => String (ascii_of_N (Z.to_N (48 + d))) (to_ascii_text rest)
           | None => "?"
           end
  end.

(** [Py_ISSPACE]: space, \t, \n, \v, \f and \r. *)
Definition is_space (c : ascii) : bool :=
  let n := byte_of c in
  (n =? 32)%Z || ((9 <=? n) && (n <=? 13))%Z.

Definition is_digit (c : ascii) : bool :=
  let n := byte_of c in ((48 <=? n) && (n <=? 57))%Z.

(** A text made of ASCII digits only. *)
Definition all_digits (s : string) : bool := forallb is_digit (list_ascii_of_string s).

Fixpoint lstrip (s : string) : string :=
  match s with
  | String c rest => if is_space c then lstrip rest else s
  | EmptyString => EmptyString
  end.

(** The scan of [long_from_string_base] in base 10: digits with single
    underscores between them.  It returns the value, the number of digits
    and the text after them; [None] for a doubled or trailing underscore.
    [prev_us] tells whether the last character read was '_'. *)
Fixpoint scan_digits (s : string) (acc digits : Z) (prev_us : bool)
    : option (Z * Z * string) :=
  match s with
  | EmptyString => if prev_us then None else Some (acc, digits, EmptyString)
  | String c rest =>
      if is_digit c then scan_digits rest (acc * 10 + (byte_of c - 48)) (digits + 1) false
      else if Ascii.eqb c "_" then
        if prev_us then None else scan_digits rest acc digits true
      else if prev_us then None else Some (acc, digits, s)
  end.

(** The limit of [sys.get_int_max_str_digits()], 4300 by default. *)
Definition int_max_str_digits : Z := 4300.

(** [PyLong_FromString(s, &end, 10)] on the ASCII text: leading white
    space, a sign, no leading underscore, the digits (at most
    [int_max_str_digits] of them), trailing white space, then the end. *)
Definition long_from_string (t : string) : option Z :=
  let t := lstrip t in
  let '(sign, t) :=
    match t with
    | String c rest =>
        if Ascii.eqb c "+" then (1, rest)
        else if Ascii.eqb c "-" then (-1, rest)
        else (1, t)
    | EmptyString => (1, t)
    end in
  match t with
  | String c _ =>
      if Ascii.eqb c "_" then None
      else match scan_digits t 0 0 false with
           | None => None
           | Some (n, digits, rest) =>
               if int_max_str_digits <? digits then None
               else if digits =? 0 then None
               else if forallb is_space (list_ascii_of_string rest) then Some (sign * n)
               else None
           end
  | EmptyString => None
  end.

(** [int(s)] on a [str] (base 10): every failure is a ValueError. *)
Definition int (s : string) : result Z :=
  match long_from_string (to_ascii_text (code_points s)) with
  | Some n => Ok n
  | None => Raise ValueError
  end.

(** Conversion of an int to a float, as done by [float - int]: the value
    overflows when it rounds to 2^1024 or beyond. *)
Definition float_overflow_bound : Z := 2 ^ 1024 - 2 ^ 970.
Definition max_double : Q := inject_Z (2 ^ 1024 - 2 ^ 971).

Definition float_of_int (n : Z) : result Q :=
  if (float_overflow_bound <=? Z.abs n)%Z then Raise OverflowError
  else Ok (inject_Z n).

End Py.
Import Py.

(** * SHA-256 (FIPS 180-4) and HMAC (RFC 2104), as used through hashlib *)
Module Sha256.

Definition word_mod : Z := 2 ^ 32.
Definition add32 (x y : Z) : Z := (x + y) mod word_mod.
Definition rotr (n x : Z) : Z :=
  Z.lor (Z.shiftr x n) (Z.shiftl x (32 - n) mod word_mod).

Definition bsig0 x := Z.lxor (Z.lxor (rotr 2 x) (rotr 13 x)) (rotr 22 x).
Definition bsig1 x := Z.lxor (Z.lxor (rotr 6 x) (rotr 11 x)) (rotr 25 x).
Definition ssig0 x := Z.lxor (Z.lxor (rotr 7 x) (rotr 18 x)) (Z.shiftr x 3).
Definition ssig1 x := Z.lxor (Z.lxor (rotr 17 x) (rotr 19 x)) (Z.shiftr x 10).
Definition choose x y z := Z.lxor (Z.land x y) (Z.land (Z.lxor x (word_mod - 1)) z).
Definition majority x y z :=
  Z.lxor (Z.lxor (Z.land x y) (Z.land x z)) (Z.land y z).

Definition hex_val (c : ascii) : Z :=
  let n := byte_of c in
  if (n <=? 57)%Z then n - 48 else n - 87.

(** Big-endian 32-bit words written as consecutive 8-digit hex groups. *)
Fixpoint words_of_hex_chars (cs : list ascii) (acc : Z) (k : nat) : list Z :=
  match cs with
  | [] => []
  | c :: rest =>
      let acc' := acc * 16 + hex_val c in
      match k with
      | 7%nat => acc' :: words_of_hex_chars rest 0 0
      | _ => words_of_hex_chars rest acc' (S k)
      end
  end.

Definition words_of_hex (s : string) : list Z :=
  words_of_hex_chars (list_ascii_of_string s) 0 0.

Definition round_constants : list Z := words_of_hex (
  "428a2f9871374491b5c0fbcfe9b5dba53956c25b59f111f1923f82a4ab1c5ed5" ++
  "d807aa9812835b01243185be550c7dc372be5d7480deb1fe9bdc06a7c19bf174" ++
  "e49b69c1efbe47860fc19dc6240ca1cc2de92c6f4a7484aa5cb0a9dc76f988da" ++
  "983e5152a831c66db00327c8bf597fc7c6e00bf3d5a7914706ca635114292967" ++
  "27b70a852e1b21384d2c6dfc53380d13650a7354766a0abb81c2c92e92722c85" ++
  "a2bfe8a1a81a664bc24b8b70c76c51a3d192e819d6990624f40e3585106aa070" ++
  "19a4c1161e376c082748774c34b0bcb5391c0cb34ed8aa4a5b9cca4f682e6ff3" ++
  "748f82ee78a5636f84c878148cc7020890befffaa4506cebbef9a3f7c67178f2").

Definition initial_hash : list Z := words_of_hex (
  "6a09e667bb67ae853c6ef372a54ff53a510e527f9b05688c1f83d9ab5be0cd19").

(** Padding: 0x80, zeros up to 56 mod 64, then the bit List.length on 8 bytes. *)
Definition be_bytes (width : nat) (v : Z) : list Z :=
  map (fun i => Z.land (Z.shiftr v (8 * Z.of_nat (width - 1 - i))) 255)
      (seq 0 width).

Definition pad (msg : list Z) : list Z :=
  let len := List.length msg in
  let zeros := ((119 - len mod 64) mod 64)%nat in
  msg ++ [128%Z] ++ repeat 0%Z zeros ++ be_bytes 8 (Z.of_nat len * 8).

Fixpoint words_of_bytes (bs : list Z) : list Z :=
  match bs with
  | b0 :: b1 :: b2 :: b3 :: rest =>
      (b0 * 2^24 + b1 * 2^16 + b2 * 2^8 + b3) :: words_of_bytes rest
  | _ => []
  end.

(** Message schedule: W[t] for t = 0..63, from the 16 words of a block. *)
Fixpoint extend (fuel : nat) (w : list Z) : list Z :=
  match fuel with
  | O => w
  | S fuel' =>
      let t := List.length w in
      let wt := add32 (add32 (ssig1 (nth (t - 2) w 0))
                             (nth (t - 7) w 0))
                      (add32 (ssig0 (nth (t - 15) w 0))
                             (nth (t - 16) w 0)) in
      extend fuel' (w ++ [wt])
  end.

Definition round (st : list Z) (kw : Z * Z) : list Z :=
  match st with
  | [a; b; c; d; e; f; g; h] =>
      let t1 := add32 (add32 (add32 h (bsig1 e)) (add32 (choose e f g) (fst kw)))
                      (snd kw) in
      let t2 := add32 (bsig0 a) (majority a b c) in
      [add32 t1 t2; a; b; c; add32 d t1; e; f; g]
  | _ => st
  end.

Definition compress (hs : list Z) (block : list Z) : list Z :=
  let w := extend 48 (words_of_bytes block) in
  let st := fold_left round (combine round_constants w) hs in
  map (fun p => add32 (fst p) (snd p)) (combine hs st).

Fixpoint blocks (fuel : nat) (bs : list Z) : list (list Z) :=
  match fuel, bs with
  | O, _ | _, [] => []
  | S fuel', _ => firstn 64 bs :: blocks fuel' (skipn 64 bs)
  end.

Definition sha256 (msg : list Z) : list Z :=
  let p := pad msg in
  let hs := fold_left compress (blocks (List.length p) p) initial_hash in
  flat_map (be_bytes 4) hs.

Definition hex_digit (v : Z) : ascii :=
  ascii_of_N (Z.to_N (if (v <? 10)%Z then 48 + v else 87 + v)).

(** [.hexdigest()]: two lowercase hex digits per byte. *)
Definition hexdigest (bs : list Z) : string :=
  string_of_list_ascii
    (flat_map (fun b => [hex_digit (Z.shiftr b 4); hex_digit (Z.land b 15)]) bs).

(** [hmac.new(key, msg, hashlib.sha256)]: block size 64, longer keys
    hashed first, shorter keys padded with zeros. *)
Definition block_size : nat := 64.

Definition hmac_sha256 (key msg : list Z) : list Z :=
  let key := if Nat.ltb block_size (List.length key) then sha256 key else key in
  let key := key ++ repeat 0%Z (block_size - List.length key) in
  let inner := sha256 (map (Z.lxor 54) key ++ msg) in
  sha256 (map (Z.lxor 92) key ++ inner).

End Sha256.


(** * examples/github-release-with-webhook.py, part 2: the webhook receiver *)
Module Webhook.
Import Sha256.

(** CPython's [_tscmp] (Modules/_operator.c), behind [hmac.compare_digest]:
    the loop runs over the length of [b]; its left operand is [a] when the lengths
    agree and [b] itself (with [result = 1]) otherwise.  The second
    component counts the loop iterations. *)
Fixpoint tscmp_loop (lhs rhs : list Z) (result : Z) (i : nat) : Z * nat :=
  match lhs, rhs with
  | l :: lhs', r :: rhs' =>
      tscmp_loop lhs' rhs' (Z.lor result (Z.lxor l r)) (S i)
  | _, _ => (result, i)
  end.

Definition tscmp (a b : list Z) : bool * nat :=
  let '(lhs, result) :=
    if Nat.eqb (List.length a) (List.length b) then (a, 0) else (b, 1) in
  let '(result, steps) := tscmp_loop lhs b result 0 in
  (Z.eqb result 0, steps).

Definition is_ascii_str (s : string) : bool :=
  forallb (fun c => Z.ltb (byte_of c) 128) (list_ascii_of_string s).

(** [hmac.compare_digest(a, b)] on two [str]: both must be ASCII, else
    TypeError; the bytes are then compared by [_tscmp]. *)
Definition compare_digest_trace (a b : string) : result (bool * nat) :=
  if is_ascii_str a && is_ascii_str b
  then Ok (tscmp (bytes_of a) (bytes_of b))
  else Raise TypeError.

Definition compare_digest (a b : string) : result bool :=
  r <- compare_digest_trace a b ;; Ok (fst r).

(** [signature.split('=')[1] if '=' in signature else signature] *)
Definition provided_signature (signature : string) : result string :=
  if contains "=" signature then index (split "=" signature) 1
  else Ok signature.

(** The signed message [f"{timestamp}.{payload_json}"] and the expected
    [hmac.new(secret, message, sha256).hexdigest()]. *)
Definition message (timestamp payload_json : string) : string :=
  (timestamp ++ "." ++ payload_json)%string.

Definition expected_signature (secret timestamp payload_json : string) : string :=
  hexdigest (hmac_sha256 (bytes_of secret) (bytes_of (message timestamp payload_json))).

Definition tolerance : Q := inject_Z 300.

(** [verify_webhook_signature(payload_json, signature, timestamp, secret)],
    with [now] the value of [time.time()].  The float subtraction is taken
    exact (it is, by Sterbenz's lemma, for timestamps near a real clock);
    only the int-to-float overflow is kept. *)
Definition verify_webhook_signature
    (payload_json signature timestamp secret : string) (now : Q) : result bool :=
  n <- int timestamp ;;
  t <- float_of_int n ;;
  if negb (Qle_bool (Qabs (now - t)) tolerance) then Ok false
  else
    let expected := expected_signature secret timestamp payload_json in
    provided <- provided_signature signature ;;
    compare_digest expected provided.

(** A JSON object body as a dict of its (string-valued) fields. *)
Definition dict := list (string * string).

Fixpoint dict_get (k : string) (d : dict) : option string :=
  match d with
  | [] => None
  | (k', v) :: rest => if String.eqb k k' then Some v else dict_get k rest
  end.

(** What [json.loads] makes of the body. *)
Inductive json_body :=
| Malformed               (* not JSON text *)
| NotObject               (* JSON, but not an object: a list, string, number, bool or null *)
| Object (d : dict).

(** An inbound request: its two headers (absent or present), the raw body,
    whether its Content-Type is JSON ([request.is_json]: application/json
    or application/*+json), and its body read as JSON. *)
Record request := {
  sig_header : option string;
  ts_header : option string;
  raw_body : string;
  content_is_json : bool;
  body_json : json_body
}.

Definition header_get (h : option string) (default : string) : string :=
  match h with Some v => v | None => default end.

(** [request.get_json()] (Flask and Werkzeug 2.3 and later): without a
    JSON Content-Type it raises UnsupportedMediaType (415), for a body
    that is not JSON BadRequest (400). *)
Definition get_json (req : request) : result json_body :=
  if negb (content_is_json req) then Raise UnsupportedMediaType
  else match body_json req with
       | Malformed => Raise BadRequest
       | b => Ok b
       end.

(** The lines the handler prints, i.e. its observable processing. *)
Inductive log_line :=
| InvalidSignature                      (* "Invalid webhook signature!" *)
| VideoCompleted (job_id : option string)  (* f"Video {job_id} completed!" *)
| VideoURL (video_url : option string)     (* f"Video URL: {video_url}" *)
| VideoFailed (job_id : option string)     (* f"Video {job_id} failed!" *)
| VideoError (error : option string).      (* f"Error: {error}" *)

Record response := { status_code : Z; response_json : dict }.

Definition truthy (s : string) : bool := negb (String.eqb s "").

(** From [payload = request.get_json()] to the 200 answer; [payload.get]
    raises AttributeError when the payload is not a dict. *)
Definition process (req : request) : list log_line * result response :=
  match get_json req with
  | Raise e => ([], Raise e)
  | Ok (Object payload) =>
      let event := dict_get "event" payload in
      let job_id := dict_get "job_id" payload in
      let logs :=
        match event with
        | Some e =>
            if String.eqb e "video.completed"
            then [VideoCompleted job_id; VideoURL (dict_get "video_url" payload)]
            else if String.eqb e "video.failed"
            then [VideoFailed job_id; VideoError (dict_get "error" payload)]
            else []
        | None => []
        end in
      (logs, Ok {| status_code := 200; response_json := [("status", "received")] |})
  | Ok _ => ([], Raise AttributeError)
  end.

(** [handle_vloex_webhook()], with [WEBHOOK_SECRET] and [time.time()] as
    parameters. *)
Definition handle_vloex_webhook (WEBHOOK_SECRET : string) (now : Q) (req : request)
    : list log_line * result response :=
  let signature := header_get (sig_header req) "" in
  let timestamp := header_get (ts_header req) "" in
  let payload_json := raw_body req in
  if truthy WEBHOOK_SECRET && truthy signature then
    match verify_webhook_signature payload_json signature timestamp WEBHOOK_SECRET now with
    | Raise e => ([], Raise e)
    | Ok false =>
        ([InvalidSignature],
         Ok {| status_code := 401; response_json := [("error", "Invalid signature")] |})
    | Ok true => process req
    end
  else process req.

End Webhook.


(** * vloex/client.py *)
Module Client.

Local Set Warnings "-register-all".

(** JSON values, as [requests] sends and decodes them. *)
Inductive json :=
| JNull
| JBool (b : bool)
| JInt (z : Z)
| JStr (s : string)
| JList (l : list json)
| JObj (d : list (string * json)).

Definition dict := list (string * json).

(** Python truthiness of a JSON value. *)
Definition truthy (v : json) : bool :=
  match v with
  | JNull => false
  | JBool b => b
  | JInt z => negb (Z.eqb z 0)
  | JStr s => negb (String.eqb s "")
  | JList l => match l with [] => false | _ => true end
  | JObj d => match d with [] => false | _ => true end
  end.

(** [a or b] *)
Definition py_or (a b : json) : json := if truthy a then a else b.

(** [d.get(k)]: [None] when absent. *)
Fixpoint dict_get (k : string) (d : dict) : json :=
  match d with
  | [] => JNull
  | (k', v) :: rest => if String.eqb k k' then v else dict_get k rest
  end.

(** [d[k] = v]: an existing key keeps its place, a new key goes last. *)
Fixpoint dict_set {V} (k : string) (v : V) (d : list (string * V)) : list (string * V) :=
  match d with
  | [] => [(k, v)]
  | (k', v') :: rest =>
      if String.eqb k k' then (k', v) :: rest else (k', v') :: dict_set k v rest
  end.

(** [{**base, **extra}] *)
Definition dict_merge (base extra : dict) : dict :=
  fold_left (fun d kv => dict_set (fst kv) (snd kv) d) extra base.

(** [sub in s] for strings. *)
Fixpoint in_str (sub s : string) : bool :=
  match s with
  | EmptyString => String.eqb sub ""
  | String _ rest => String.prefix sub s || in_str sub rest
  end.

Definition str_truthy (s : option string) : bool :=
  match s with Some v => negb (String.eqb v "") | None => false end.

Definition list_truthy {A} (l : option (list A)) : bool :=
  match l with Some (_ :: _) => true | _ => false end.

Definition DEFAULT_BASE_URL : string := "https://api.vloex.com".

(** A [Vloex] client: its API key and base URL ([self.videos] is a view
    on the same client). *)
Record Vloex := { api_key : string; base_url : string }.

(** [Vloex(api_key, base_url)]; [None] is Python's [None]. *)
Definition Vloex_init (api_key : option string) (base_url : string) : result Vloex :=
  match api_key with
  | Some k =>
      if negb (String.eqb k "") then Ok {| api_key := k; base_url := base_url |}
      else Raise ValueError
  | None => Raise ValueError
  end.

(** Errors leaving the client: a Python exception or a [VloexError]. *)
Inductive client_exc :=
| PyExc (e : exc)
| VloexError (message : json) (status_code : Z).

Inductive cresult (A : Type) :=
| Done (a : A)
| Fail (e : client_exc).
Arguments Done {A} a.
Arguments Fail {A} e.

(** An HTTP request as passed to [requests.request]. *)
Record http_request := {
  req_method : string;
  req_url : string;
  req_headers : list (string * string);
  req_json : option dict;
  req_timeout : Z
}.

(** The server's answer: [response.ok], [response.status_code] and
    [response.json()], any JSON value ([None] when the body is not JSON:
    [response.json()] then raises a ValueError). *)
Record http_response := {
  resp_ok : bool;
  resp_status : Z;
  resp_json : option json
}.

(** Computations that issue HTTP requests: the requests sent so far are
    threaded as state. *)
Definition M (A : Type) := list http_request -> list http_request * cresult A.

Section WithServer.
(** The remote API. *)
Variable server : http_request -> http_response.

(** What follows [data.get(...)]: [get] exists on a dict only, any other
    JSON value raises AttributeError. *)
Definition with_dict {A} (data : json) (k : dict -> cresult A) : cresult A :=
  match data with
  | JObj d => k d
  | _ => Fail (PyExc AttributeError)
  end.

(** [Vloex._request(method, path, body, idempotency_key)] *)
Definition _request (self : Vloex) (method path : string) (body : option dict)
    (idempotency_key : option string) : M json :=
  fun sent =>
    let url := (base_url self ++ path)%string in
    let headers := [("Authorization", ("Bearer " ++ api_key self)%string);
                    ("Content-Type", "application/json")] in
    let headers :=
      match idempotency_key with
      | Some k => if negb (String.eqb k "") then dict_set "Idempotency-Key" k headers
                  else headers
      | None => headers
      end in
    let req := {| req_method := method; req_url := url; req_headers := headers;
                  req_json := body; req_timeout := 60 |} in
    let response := server req in
    let sent := sent ++ [req] in
    let data := match resp_json response with Some v => v | None => JObj [] end in
    if negb (resp_ok response) then
      (sent, with_dict data (fun data =>
        let error_message :=
          py_or (dict_get "detail" data)
                (py_or (dict_get "message" data) (JStr "API request failed")) in
        Fail (VloexError error_message (resp_status response))))
    else if in_str "/generate" path then
      (sent, with_dict data (fun data =>
        Done (JObj [("id", py_or (dict_get "job_id" data) (dict_get "id" data));
                    ("status", dict_get "status" data);
                    ("url", dict_get "url" data);
                    ("error", dict_get "error" data)])))
    else if in_str "/status" path then
      (sent, with_dict data (fun data =>
        Done (JObj [("id", dict_get "id" data);
                    ("status", dict_get "status" data);
                    ("url", py_or (dict_get "video_url" data) (dict_get "url" data));
                    ("error", py_or (dict_get "error_message" data) (dict_get "error" data))])))
    else if in_str "/from-journey" path then
      (sent, with_dict data (fun data =>
        Done (JObj [("id", dict_get "id" data);
                    ("status", dict_get "status" data);
                    ("created_at", dict_get "created_at" data);
                    ("updated_at", dict_get "updated_at" data)])))
    else (sent, Done data).

(** [VideoResource.from_journey(...)], every keyword argument explicit;
    [options] holds the [**options] keywords in call order. *)
Definition from_journey (self : Vloex)
    (screenshots descriptions : option (list string))
    (product_url : option string) (pages : option (list string))
    (product_context : option string) (step_duration : Z)
    (avatar_position tone : string)
    (webhook_url webhook_secret : option string) (options : dict) : M json :=
  fun sent =>
    match product_context with
    | Some pc =>
        if String.eqb pc "" then (sent, Fail (PyExc ValueError))
        else
          let payload :=
            dict_merge [("product_context", JStr pc);
                        ("step_duration", JInt step_duration);
                        ("avatar_position", JStr avatar_position);
                        ("tone", JStr tone)] options in
          let strs l := match l with Some xs => JList (map JStr xs) | None => JNull end in
          let payload :=
            if list_truthy screenshots then
              let p := dict_set "screenshots" (strs screenshots) payload in
              if list_truthy descriptions then dict_set "descriptions" (strs descriptions) p
              else p
            else payload in
          let payload :=
            match product_url with
            | Some u =>
                if negb (String.eqb u "") then
                  let p := dict_set "product_url" (JStr u) payload in
                  if list_truthy pages then dict_set "pages" (strs pages) p else p
                else payload
            | None => payload
            end in
          let payload :=
            match webhook_url with
            | Some u => if negb (String.eqb u "") then dict_set "webhook_url" (JStr u) payload
                        else payload
            | None => payload
            end in
          let payload :=
            match webhook_secret with
            | Some s => if negb (String.eqb s "") then dict_set "webhook_secret" (JStr s) payload
                        else payload
            | None => payload
            end in
          _request self "POST" "/v1/videos/from-journey" (Some payload) None sent
    | None => (sent, Fail (PyExc ValueError))
    end.

End WithServer.

End Client.

(** * Concrete inputs and the spec's own readings *)
Module SpecDefs.
Import Webhook.

Definition hex_chars : string := "0123456789abcdef".

(** Lowercase hexadecimal text. *)
Definition is_hex (s : string) : bool :=
  forallb (fun c => contains c hex_chars) (list_ascii_of_string s).

(** The spec's signature extraction: everything after the first '='. *)
Fixpoint after_first_eq (s : string) : string :=
  match s with
  | EmptyString => EmptyString
  | String c rest => if Ascii.eqb c "=" then rest else after_first_eq rest
  end.

Definition spec_provided_signature (s : string) : string :=
  if contains "=" s then after_first_eq s else s.

(** The prefix of [s] before its first '=' (all of [s] when it has none). *)
Fixpoint upto_eq (s : string) : string :=
  match s with
  | EmptyString => EmptyString
  | String c rest => if Ascii.eqb c "=" then EmptyString else String c (upto_eq rest)
  end.


Definition quote : string := String (ascii_of_nat 34) EmptyString.
Definition qstr (s : string) : string := (quote ++ s ++ quote)%string.

(** The concrete scenario of the spec. *)
Definition sample_secret : string := "my_secret_key_123".
Definition sample_body : string :=
  ("{" ++ qstr "event" ++ ":" ++ qstr "video.completed" ++ ","
       ++ qstr "job_id" ++ ":" ++ qstr "job_abc123" ++ ","
       ++ qstr "video_url" ++ ":" ++ qstr "https://x/y.mp4" ++ "}")%string.
Definition sample_timestamp : string := "1760000000".
Definition sample_now : Q := inject_Z 1760000000.
Definition sample_signature : string :=
  expected_signature sample_secret sample_timestamp sample_body.
Definition sample_payload : dict :=
  [("event", "video.completed"); ("job_id", "job_abc123");
   ("video_url", "https://x/y.mp4")].

(** The handler's two answers. *)
Definition ok_200 : response :=
  {| status_code := 200; response_json := [("status", "received")] |}.
Definition invalid_401 : response :=
  {| status_code := 401; response_json := [("error", "Invalid signature")] |}.

(** A delivery with neither signature nor timestamp header. *)
Definition unsigned_request : request := {|
  sig_header := None;
  ts_header := None;
  raw_body := sample_body;
  content_is_json := true;
  body_json := Object sample_payload
|}.

(** A fresh delivery whose signature is not the HMAC of its body. *)
Definition forged_request : request := {|
  sig_header := Some "sha256=deadbeef";
  ts_header := Some sample_timestamp;
  raw_body := sample_body;
  content_is_json := true;
  body_json := Object sample_payload
|}.

(** A client and a server that accepts every request. *)
Definition sample_client : Client.Vloex :=
  {| Client.api_key := "sk_test_123"; Client.base_url := Client.DEFAULT_BASE_URL |}.

Definition sample_server (req : Client.http_request) : Client.http_response :=
  {| Client.resp_ok := true; Client.resp_status := 200;
     Client.resp_json := Some (Client.JObj [("id", Client.JStr "job_abc123");
                                            ("status", Client.JStr "queued")]) |}.

(** A decimal timestamp of 4301 digits, more than [int()] converts. *)
Definition huge_timestamp : string :=
  ("1" ++ string_of_list_ascii (repeat "0"%char 4300))%string.

(** A decimal timestamp of 401 digits, too large for a float. *)
Definition big_timestamp : string :=
  ("1" ++ string_of_list_ascii (repeat "0"%char 400))%string.

End SpecDefs.

(** * Python [str] operations on the UTF-8 model *)
Module Text.
Import Py.

Definition nl_char : ascii := ascii_of_nat 10.
Definition nl : string := String nl_char EmptyString.

(** UTF-8 continuation bytes, 0b10xxxxxx. *)
Definition is_cont (c : ascii) : bool := Z.eqb (Z.land (byte_of c) 192) 128.

(** The characters of a [str], each as the bytes of its UTF-8 encoding:
    every byte that is not a continuation byte starts a character. *)
Fixpoint chars (s : string) : list string :=
  match s with
  | EmptyString => []
  | String c rest =>
      match chars rest with
      | String d g :: gs =>
          if is_cont d then String c (String d g) :: gs
          else String c EmptyString :: String d g :: gs
      | gs => String c EmptyString :: gs
      end
  end.

(** [''.join(l)] *)
Fixpoint join (l : list string) : string :=
  match l with
  | [] => EmptyString
  | x :: rest => (x ++ join rest)%string
  end.

Definition utf8 (bs : list nat) : string := string_of_list_ascii (map ascii_of_nat bs).

(** The characters for which [str.isspace()] holds, the ones [str.strip()]
    removes: U+0009..U+000D, U+001C..U+0020, U+0085, U+00A0, U+1680,
    U+2000..U+200A, U+2028, U+2029, U+202F, U+205F and U+3000. *)
Definition whitespace : list string :=
  map utf8 (map (fun n => [n]) (seq 9 5 ++ seq 28 5) ++
            [[194; 133]; [194; 160]; [225; 154; 128]] ++
            map (fun n => [226; 128; n]) (seq 128 11) ++
            [[226; 128; 168]; [226; 128; 169]; [226; 128; 175];
             [226; 129; 159]; [227; 128; 128]])%nat.

Definition isspace (ch : string) : bool := existsb (String.eqb ch) whitespace.

Fixpoint drop_while {A} (p : A -> bool) (l : list A) : list A :=
  match l with
  | x :: rest => if p x then drop_while p rest else l
  | [] => []
  end.

(** [s.strip()] *)
Definition strip (s : string) : string :=
  join (rev (drop_while isspace (rev (drop_while isspace (chars s))))).

(** [s[n:]] and [s[:n]] for [n >= 0], counted in characters. *)
Definition drop_chars (n : nat) (s : string) : string := join (skipn n (chars s)).
Definition take_chars (n : nat) (s : string) : string := join (firstn n (chars s)).

(** [l[:stop]]: a negative [stop] counts from the end. *)
Definition slice_stop {A} (l : list A) (stop : Z) : list A :=
  let stop := if Z.ltb stop 0 then stop + Z.of_nat (List.length l) else stop in
  firstn (Z.to_nat stop) l.

(** Decimal digits of [n >= 0] in front of [acc]. *)
Fixpoint dec_digits (fuel : nat) (n : Z) (acc : string) : string :=
  match fuel with
  | O => acc
  | S fuel' =>
      let acc := String (ascii_of_nat (Z.to_nat (48 + n mod 10))) acc in
      if Z.ltb n 10 then acc else dec_digits fuel' (n / 10) acc
  end.

(** [str(n)] for an int. *)
Definition str_int (n : Z) : string :=
  if Z.ltb n 0 then String "-" (dec_digits (Z.to_nat (Z.log2 (- n) + 1)) (- n) EmptyString)
  else dec_digits (Z.to_nat (Z.log2 n + 1)) n EmptyString.

End Text.


(** * vloex/client.py: the rest of [VideoResource]; vloex/exceptions.py *)
Module Videos.
Import Py Client Text.

Section WithServer.
Variable server : http_request -> http_response.

(** [VideoResource.create(script, webhook_url, webhook_secret,
    idempotency_key, **options)] *)
Definition create (self : Vloex) (script : string)
    (webhook_url webhook_secret idempotency_key : option string) (options : dict) : M json :=
  let payload := [("input", JStr script); ("options", JObj options)] in
  let payload :=
    match webhook_url with
    | Some u => if negb (String.eqb u "") then dict_set "webhook_url" (JStr u) payload
                else payload
    | None => payload
    end in
  let payload :=
    match webhook_secret with
    | Some s => if negb (String.eqb s "") then dict_set "webhook_secret" (JStr s) payload
                else payload
    | None => payload
    end in
  _request server self "POST" "/v1/generate" (Some payload) idempotency_key.

(** [VideoResource.retrieve(id)] *)
Definition retrieve (self : Vloex) (id : string) : M json :=
  _request server self "GET" ("/v1/jobs/" ++ id ++ "/status")%string None None.

End WithServer.

(** [str(v)], as an f-string formats [v]; [repr] gives the text of a list
    or a dict, which is not modelled. *)
Definition py_str (repr : json -> string) (v : json) : string :=
  match v with
  | JNull => "None"
  | JBool true => "True"
  | JBool false => "False"
  | JInt z => str_int z
  | JStr s => s
  | JList _ | JObj _ => repr v
  end.

(** [VloexError.__str__] for an error raised by [_request] (an int status
    code); [__str__] must return a [str]. *)
Definition vloex_error_str (repr : json -> string) (message : json) (status_code : Z)
    : result string :=
  if negb (Z.eqb status_code 0) then
    Ok ("[" ++ str_int status_code ++ "] " ++ py_str repr message)%string
  else
    match message with
    | JStr s => Ok s
    | _ => Raise TypeError
    end.

End Videos.


(** * The example scripts' runtime *)
Module Scripts.
Import Py Client Text.

(** Exceptions leaving an example script. *)
Inductive script_exc :=
| Exc (e : client_exc)
| KeyError (key : string)
| GitHubError (status : Z)
| HTTPError (status : Z)
| DictSlice
| UnboundLocalError
| OSError (path : string).  (* FileNotFoundError and the like, from reading a file *)

Inductive sres (A : Type) :=
| SDone (a : A)
| SFail (e : script_exc).
Arguments SDone {A} a.
Arguments SFail {A} e.

(** A script run: the requests sent to the VLOEX API are threaded. *)
Definition Prog (A : Type) := list http_request -> list http_request * sres A.

Definition sret {A} (a : A) : Prog A := fun sent => (sent, SDone a).
Definition sfail {A} (e : script_exc) : Prog A := fun sent => (sent, SFail e).

Definition sbind {A B} (m : Prog A) (k : A -> Prog B) : Prog B :=
  fun sent =>
    match m sent with
    | (sent', SDone a) => k a sent'
    | (sent', SFail e) => (sent', SFail e)
    end.

Definition of_sres {A} (r : sres A) : Prog A := fun sent => (sent, r).

(** A client call. *)
Definition lift {A} (m : M A) : Prog A :=
  fun sent =>
    match m sent with
    | (sent', Done a) => (sent', SDone a)
    | (sent', Fail e) => (sent', SFail (Exc e))
    end.

Fixpoint lookup (k : string) (d : dict) : option json :=
  match d with
  | [] => None
  | (k', v) :: rest => if String.eqb k k' then Some v else lookup k rest
  end.

(** [v[k]] with a string key. *)
Definition getitem (v : json) (k : string) : sres json :=
  match v with
  | JObj d => match lookup k d with Some x => SDone x | None => SFail (KeyError k) end
  | _ => SFail (Exc (PyExc TypeError))
  end.

(** [v.get(k, default)]: only a dict has [get]. *)
Definition get (v : json) (k : string) (default : json) : sres json :=
  match v with
  | JObj d => SDone (match lookup k d with Some x => x | None => default end)
  | _ => SFail (Exc (PyExc AttributeError))
  end.

(** [v[:n]]: strings and lists are sliced; a dict raises ([TypeError]
    before Python 3.12, [KeyError] from 3.12), other values TypeError. *)
Definition slice_to (v : json) (n : nat) : sres json :=
  match v with
  | JStr s => SDone (JStr (take_chars n s))
  | JList l => SDone (JList (firstn n l))
  | JObj _ => SFail DictSlice
  | _ => SFail (Exc (PyExc TypeError))
  end.

(** The receiver of a [str] method: other values lack the attribute. *)
Definition as_str (v : json) : sres string :=
  match v with
  | JStr s => SDone s
  | _ => SFail (Exc (PyExc AttributeError))
  end.

(** [f"{v:.2f}"] on a JSON value. *)
Definition format_2f (v : json) : sres unit :=
  match v with
  | JInt _ | JBool _ => SDone tt
  | JStr _ => SFail (Exc (PyExc ValueError))
  | _ => SFail (Exc (PyExc TypeError))
  end.

(** [v == s] for a string [s]. *)
Definition is_str (v : json) (s : string) : bool :=
  match v with JStr t => String.eqb t s | _ => false end.

(** [requests.get(url)] on the GitHub API: the status code and
    [response.json()] ([None] when the body is not JSON). *)
Record github_response := { gh_status : Z; gh_json : option json }.

Definition release_url (repo_owner repo_name : string) : string :=
  ("https://api.github.com/repos/" ++ repo_owner ++ "/" ++ repo_name
     ++ "/releases/latest")%string.

End Scripts.


(** * examples/github-release-video.py *)
Module ReleaseVideo.
Import Py Client Text Videos Scripts.

(** [extract_release_highlights(release_body, max_items)] *)
Definition extract_release_highlights (release_body : string) (max_items : Z) : list string :=
  let changes :=
    map (fun line => strip (drop_chars 2 line))
      (filter (fun line => String.prefix "- " (strip line)) (split nl_char release_body)) in
  slice_stop changes max_items.

(** [create_release_script(version, changes, repo_name)] *)
Definition create_release_script (version : string) (changes : list string)
    (repo_name : string) : string :=
  let script := (repo_name ++ " " ++ version ++ " has been released!" ++ nl ++ nl)%string in
  let script :=
    match changes with
    | [] => script
    | _ => (script ++ "This release includes important updates:" ++ nl ++ nl
              ++ String.concat nl changes ++ nl ++ nl)%string
    end in
  strip (script ++ "Check out the full release notes on GitHub!").

Definition max_attempts : nat := 60.

Section Run.
(** The GitHub API, the VLOEX API (its answer may depend on the requests
    it has received before) and [str()] of a list or a dict. *)
Variable github : string -> github_response.
Variable server : list http_request -> http_request -> http_response.
Variable repr : json -> string.

(** A client call, answered by the server in its current state. *)
Definition api {A} (f : (http_request -> http_response) -> M A) : Prog A :=
  fun sent => lift (f (server sent)) sent.

(** [fetch_latest_release(repo_owner, repo_name)] *)
Definition fetch_latest_release (repo_owner repo_name : string) : sres json :=
  let response := github (release_url repo_owner repo_name) in
  if negb (Z.eqb (gh_status response) 200) then SFail (GitHubError (gh_status response))
  else match gh_json response with
       | Some release => SDone release
       | None => SFail (Exc (PyExc ValueError))
       end.

(** The polling loop: [remaining] is [max_attempts - attempt] and
    [status] the last answer ([None] while unbound). *)
Fixpoint poll (remaining : nat) (vloex : Vloex) (video : json) (status : option json)
    : Prog json :=
  match remaining with
  | O =>
      match status with
      | Some st => sret st
      | None => sfail UnboundLocalError
      end
  | S remaining' =>
      sbind (of_sres (getitem video "id")) (fun id =>
      sbind (api (fun srv => retrieve srv vloex (py_str repr id))) (fun st =>
      sbind (of_sres (getitem st "status")) (fun s =>
      if is_str s "completed" then sret st
      else if is_str s "failed" then sret st
      else poll remaining' vloex video (Some st))))
  end.

(** [generate_release_video(api_key, repo_owner, repo_name)], without its
    printing; the [except VloexError] clause re-raises. *)
Definition generate_release_video (api_key : option string) (repo_owner repo_name : string)
    : Prog json :=
  match Vloex_init api_key DEFAULT_BASE_URL with
  | Raise e => sfail (Exc (PyExc e))
  | Ok vloex =>
      sbind (of_sres (fetch_latest_release repo_owner repo_name)) (fun release =>
      sbind (of_sres (getitem release "tag_name")) (fun version =>
      sbind (of_sres (getitem release "published_at")) (fun published_at =>
      sbind (of_sres (slice_to published_at 10)) (fun _ =>
      sbind (of_sres (getitem release "body")) (fun body =>
      sbind (of_sres (as_str body)) (fun body =>
      let changes := extract_release_highlights body 5 in
      let script := create_release_script (py_str repr version) changes repo_name in
      sbind (api (fun srv => create srv vloex script None None None [])) (fun video =>
      sbind (of_sres (getitem video "id")) (fun _ =>
      sbind (of_sres (getitem video "status")) (fun _ =>
      poll max_attempts vloex video None)))))))))
  end.

End Run.

End ReleaseVideo.


(** * examples/github-release-with-webhook.py, part 1 *)
Module ReleaseWebhook.
Import Py Client Text Videos Scripts.

(** [response.raise_for_status()] *)
Definition raise_for_status (status : Z) : sres unit :=
  if Z.leb 400 status && Z.ltb status 600 then SFail (HTTPError status) else SDone tt.

(** The f-string of the video script. *)
Definition release_script (name version excerpt : string) : string :=
  (nl ++ "    Hey everyone! " ++ name ++ " is here!" ++ nl ++ nl
   ++ "    We're excited to announce " ++ version ++ " with some amazing updates." ++ nl ++ nl
   ++ "    " ++ excerpt ++ "..." ++ nl ++ nl
   ++ "    Check out the full release notes on GitHub to learn more." ++ nl
   ++ "    Update now to get these improvements!" ++ nl ++ "    ")%string.

(** [video.id] on the value returned by [create]: a dict, like every
    JSON value, has no attribute [id]. *)
Definition attr_id (video : json) : sres json := SFail (Exc (PyExc AttributeError)).

Section Run.
Variable github : string -> github_response.
Variable server : list http_request -> http_request -> http_response.
Variable repr : json -> string.

(** [generate_release_video_with_webhook(api_key, repo_owner, repo_name,
    webhook_url, webhook_secret)], without its printing. *)
Definition generate_release_video_with_webhook (api_key : option string)
    (repo_owner repo_name : string) (webhook_url webhook_secret : option string)
    : Prog json :=
  let response := github (release_url repo_owner repo_name) in
  sbind (of_sres (raise_for_status (gh_status response))) (fun _ =>
  sbind (of_sres (match gh_json response with
                  | Some release => SDone release
                  | None => SFail (Exc (PyExc ValueError))
                  end)) (fun release =>
  sbind (of_sres (get release "tag_name" (JStr "Unknown"))) (fun version =>
  sbind (of_sres (get release "name" version)) (fun name =>
  sbind (of_sres (get release "body" (JStr "No release notes available."))) (fun body =>
  sbind (of_sres (slice_to body 500)) (fun excerpt =>
  let script := release_script (py_str repr name) (py_str repr version) (py_str repr excerpt) in
  match Vloex_init api_key DEFAULT_BASE_URL with
  | Raise e => sfail (Exc (PyExc e))
  | Ok vloex =>
      sbind (ReleaseVideo.api server
               (fun srv => create srv vloex script webhook_url webhook_secret None [])) (fun video =>
      sbind (of_sres (attr_id video)) (fun _ =>
      sret video))
  end)))))).

End Run.

End ReleaseWebhook.


(** * examples/journey_mode1_screenshots.py, journey_mode1_with_descriptions.py
    and journey_mode2_public.py *)
Module Journeys.
Import Py Client Scripts.

Definition example_api_key : string := "vs_live_...".

Definition b64_alphabet : string :=
  "ABCDEFGHIJKLMNOPQRSTUVWXYZabcdefghijklmnopqrstuvwxyz0123456789+/".

(** The base64 digit of a 6-bit value. *)
Definition b64_digit (n : Z) : ascii :=
  match String.get (Z.to_nat (Z.land n 63)) b64_alphabet with
  | Some c => c
  | None => "="%char
  end.

Definition byte_val (c : ascii) : Z := Z.of_nat (nat_of_ascii c).

(** [base64.b64encode(data).decode('utf-8')]: each group of three bytes
    gives four digits, a final group of two or one byte is padded with '='. *)
Fixpoint b64encode (data : string) : string :=
  match data with
  | String a (String b (String c rest)) =>
      let n := Z.lor (Z.shiftl (byte_val a) 16) (Z.lor (Z.shiftl (byte_val b) 8) (byte_val c)) in
      String (b64_digit (Z.shiftr n 18)) (String (b64_digit (Z.shiftr n 12))
        (String (b64_digit (Z.shiftr n 6)) (String (b64_digit n) (b64encode rest))))
  | String a (String b EmptyString) =>
      let n := Z.lor (Z.shiftl (byte_val a) 16) (Z.shiftl (byte_val b) 8) in
      String (b64_digit (Z.shiftr n 18)) (String (b64_digit (Z.shiftr n 12))
        (String (b64_digit (Z.shiftr n 6)) "="))
  | String a EmptyString =>
      let n := Z.shiftl (byte_val a) 16 in
      String (b64_digit (Z.shiftr n 18)) (String (b64_digit (Z.shiftr n 12)) "==")
  | EmptyString => ""
  end.

Section Run.
(** The VLOEX API, and the file system: [read_bytes path] is the content
    of the file, one character per byte, or [None] when reading raises an
    OSError (the file is missing, unreadable, a directory, ...). *)
Variable server : http_request -> http_response.
Variable read_bytes : string -> option string.

(** [Path(path).read_bytes()], or [open(path, 'rb').read()]. *)
Definition read_file (path : string) : sres string :=
  match read_bytes path with
  | Some data => SDone data
  | None => SFail (OSError path)
  end.

(** [main()] of journey_mode1_screenshots.py. *)
Definition mode1_screenshots_main : Prog unit :=
  match Vloex_init (Some example_api_key) DEFAULT_BASE_URL with
  | Raise e => sfail (Exc (PyExc e))
  | Ok vloex =>
      sbind (of_sres (read_file "screenshot1.png")) (fun data1 =>
      let screenshot1_b64 := b64encode data1 in
      sbind (of_sres (read_file "screenshot2.png")) (fun data2 =>
      let screenshot2_b64 := b64encode data2 in
      sbind (lift (from_journey server vloex (Some [screenshot1_b64; screenshot2_b64]) None
               None None (Some "My Product Demo - Key Features") 15 "bottom-right"
               "professional" None None [])) (fun result =>
      sbind (of_sres (getitem result "video_url")) (fun _ =>
      sbind (of_sres (getitem result "duration_seconds")) (fun _ =>
      sbind (of_sres (getitem result "cost")) (fun cost =>
      of_sres (format_2f cost)))))))
  end.

(** [main()] of journey_mode1_with_descriptions.py. *)
Definition mode1_descriptions_main : Prog unit :=
  match Vloex_init (Some example_api_key) DEFAULT_BASE_URL with
  | Raise e => sfail (Exc (PyExc e))
  | Ok vloex =>
      sbind (of_sres (read_file "path/to/login.png")) (fun data1 =>
      let screenshot1_b64 := b64encode data1 in
      sbind (of_sres (read_file "path/to/dashboard.png")) (fun data2 =>
      let screenshot2_b64 := b64encode data2 in
      sbind (lift (from_journey server vloex (Some [screenshot1_b64; screenshot2_b64])
               (Some ["Welcome to the login page. Enter your credentials to access the dashboard.";
                      "The main dashboard shows all your metrics and recent activity at a glance."])
               None None (Some "MyApp Product Demo") 10 "bottom-right" "professional"
               None None [])) (fun result =>
      sbind (of_sres (getitem result "success")) (fun success =>
      if truthy success then
        sbind (of_sres (getitem result "video_url")) (fun _ =>
        sbind (of_sres (getitem result "duration_seconds")) (fun _ =>
        sbind (of_sres (getitem result "file_size_mb")) (fun size =>
        sbind (of_sres (format_2f size)) (fun _ =>
        sbind (of_sres (getitem result "steps_count")) (fun _ =>
        sret tt)))))
      else
        sbind (of_sres (getitem result "error")) (fun _ => sret tt)))))
  end.

(** [main()] of journey_mode2_public.py. *)
Definition mode2_public_main : Prog unit :=
  match Vloex_init (Some example_api_key) DEFAULT_BASE_URL with
  | Raise e => sfail (Exc (PyExc e))
  | Ok vloex =>
      sbind (lift (from_journey server vloex None None (Some "https://api.vloex.com/docs")
               (Some ["/"; "#tag/videos/POST/v1/generate";
                      "#tag/videos/GET/v1/jobs/{job_id}/status"])
               (Some "VLOEX API Documentation") 15 "bottom-right" "professional"
               None None [])) (fun result =>
      sbind (of_sres (getitem result "success")) (fun success =>
      if truthy success then
        sbind (of_sres (getitem result "video_url")) (fun _ =>
        sbind (of_sres (getitem result "duration_seconds")) (fun _ =>
        sbind (of_sres (getitem result "file_size_mb")) (fun size =>
        sbind (of_sres (format_2f size)) (fun _ =>
        sbind (of_sres (getitem result "cost")) (fun cost =>
        sbind (of_sres (format_2f cost)) (fun _ =>
        sbind (of_sres (getitem result "steps_count")) (fun _ =>
        sret tt)))))))
      else
        sbind (of_sres (getitem result "error")) (fun _ => sret tt)))
  end.

End Run.

End Journeys.


(** * Notions used by the statements below, and concrete inputs *)
Module ExtraDefs.
Import Py Client Text Videos Scripts.

(** The UTF-8 text of a [str] begins at a character's first byte. *)
Definition char_start (s : string) : bool :=
  match s with
  | String c _ => negb (is_cont c)
  | EmptyString => true
  end.

Definition all_cont (t : string) : bool := forallb is_cont (list_ascii_of_string t).

(** A list of UTF-8 characters: each a first byte followed by continuation
    bytes, all but the first starting at a character boundary. *)
Definition char_list (l : list string) : Prop :=
  Forall (fun x => exists c t, x = String c t /\ all_cont t = true) l /\
  Forall (fun x => char_start x = true) (tl l).

(** A server that accepts every request and reports a job still running. *)
Definition busy_server (sent : list http_request) (req : http_request) : http_response :=
  {| resp_ok := true; resp_status := 200;
     resp_json := Some (JObj [("job_id", JStr "job_1"); ("id", JStr "job_1");
                              ("status", JStr "processing")]) |}.

(** A server refusing every request with 402 and a JSON detail. *)
Definition refusing_server (sent : list http_request) (req : http_request) : http_response :=
  {| resp_ok := false; resp_status := 402;
     resp_json := Some (JObj [("detail", JStr "Insufficient credits")]) |}.

(** A status endpoint that reports the video's URL in [video_url]. *)
Definition status_server (req : http_request) : http_response :=
  {| resp_ok := true; resp_status := 200;
     resp_json := Some (JObj [("id", JStr "generate_42"); ("status", JStr "completed");
                              ("video_url", JStr "https://cdn/v.mp4")]) |}.

Definition sample_release : json :=
  JObj [("tag_name", JStr "v1.0.0"); ("published_at", JStr "2025-01-01T00:00:00Z");
        ("body", JStr ("- Faster builds" ++ nl ++ "- Bug fixes")%string)].

Definition github_ok (url : string) : github_response :=
  {| gh_status := 200; gh_json := Some sample_release |}.

Definition github_missing (url : string) : github_response :=
  {| gh_status := 404; gh_json := Some (JObj [("message", JStr "Not Found")]) |}.

Definition no_repr (v : json) : string := "<container>".

(** The request [_request] builds and sends. *)
Definition request_for (self : Vloex) (method path : string) (body : option dict)
    (idempotency_key : option string) : http_request :=
  let headers := [("Authorization", ("Bearer " ++ api_key self)%string);
                  ("Content-Type", "application/json")] in
  {| req_method := method; req_url := (base_url self ++ path)%string;
     req_headers :=
       match idempotency_key with
       | Some k => if negb (String.eqb k "") then dict_set "Idempotency-Key" k headers
                   else headers
       | None => headers
       end;
     req_json := body; req_timeout := 60 |}.


(** The request [retrieve] sends for the job of id [id], as [poll] takes it
    from the job object. *)
Definition status_req (repr : json -> string) (vloex : Vloex) (id : json) : http_request :=
  request_for vloex "GET" ("/v1/jobs/" ++ py_str repr id ++ "/status") None None.

(** The POST that the journey examples send through [from_journey]. *)
Definition journey_req (body : dict) : http_request :=
  request_for {| api_key := Journeys.example_api_key; base_url := DEFAULT_BASE_URL |}
    "POST" "/v1/videos/from-journey" (Some body) None.

(** A failure of the example scripts that is not a VloexError. *)
Definition not_vloex (e : script_exc) : Prop :=
  match e with Exc (VloexError _ _) => False | _ => True end.

End ExtraDefs.


Module Sha256Vectors.
Import Sha256.

Example sha256_abc :
  hexdigest (sha256 (bytes_of "abc")) =
  "ba7816bf8f01cfea414140de5dae2223b00361a396177a9cb410ff61f20015ad".
Proof. vm_compute. reflexivity. Qed.

Example sha256_empty :
  hexdigest (sha256 (bytes_of "")) =
  "e3b0c44298fc1c149afbf4c8996fb92427ae41e4649b934ca495991b7852b855".
Proof. vm_compute. reflexivity. Qed.

Example hmac_fox :
  hexdigest (hmac_sha256 (bytes_of "key")
               (bytes_of "The quick brown fox jumps over the lazy dog")) =
  "f7bc83f430538424b13298e6aa6fb143ef4d59a14946175997479dbc2d1a3cd8".
Proof. vm_compute. reflexivity. Qed.

(** RFC 4231, test case 6: a key longer than the block size. *)
Example hmac_long_key :
  hexdigest (hmac_sha256 (repeat 170%Z 131)
               (bytes_of "Test Using Larger Than Block-Size Key - Hash Key First")) =
  "60e431591ee0b67f0d8a26aacbf5b77f8e0bc6213728c5140546040f0ee37f54".
Proof. vm_compute. reflexivity. Qed.

End Sha256Vectors.

(** * Facts about the webhook receiver *)
Module WebhookFacts.
Import Sha256 Webhook SpecDefs.

Lemma byte_of_inj a b : byte_of a = byte_of b -> a = b.
Proof.
  unfold byte_of; intro H.
  rewrite <- (ascii_N_embedding a), <- (ascii_N_embedding b).
  f_equal; lia.
Qed.

Lemma bytes_of_inj s t : bytes_of s = bytes_of t -> s = t.
Proof.
  revert t; induction s as [|c s IH]; intros [|d t]; simpl;
    unfold bytes_of; simpl; intro H; try discriminate; auto.
  injection H as Hcd Hst.
  apply byte_of_inj in Hcd; subst d.
  f_equal; apply IH; exact Hst.
Qed.

Lemma bytes_of_length s : List.length (bytes_of s) = String.length s.
Proof.
  induction s as [|c s IH]; [reflexivity|].
  unfold bytes_of in *; simpl; rewrite IH; reflexivity.
Qed.

Lemma tscmp_loop_steps l r res i :
  List.length l = List.length r ->
  snd (tscmp_loop l r res i) = (i + List.length r)%nat.
Proof.
  revert r res i; induction l as [|a l IH]; intros [|b r] res i Hlen;
    simpl in *; try discriminate; [lia|].
  rewrite IH by lia; lia.
Qed.

Lemma tscmp_loop_zero l r res i :
  List.length l = List.length r ->
  (fst (tscmp_loop l r res i) = 0 <-> res = 0 /\ l = r).
Proof.
  revert r res i; induction l as [|a l IH]; intros [|b r] res i Hlen;
    simpl in *; try discriminate.
  - intuition.
  - rewrite IH by lia.
    rewrite Z.lor_eq_0_iff, Z.lxor_eq_0_iff.
    split.
    + intros [[H1 H2] H3]; subst; auto.
    + intros [H1 H2]; injection H2 as H2 H3; subst; auto.
Qed.

(** [_tscmp] answers list equality after exactly [len b] iterations. *)
Lemma tscmp_spec a b :
  tscmp a b =
  ((if list_eq_dec Z.eq_dec a b then true else false), List.length b).
Proof.
  unfold tscmp.
  destruct (Nat.eqb_spec (List.length a) (List.length b)) as [Hl|Hl].
  - pose proof (tscmp_loop_steps a b 0 0 Hl) as Hs.
    pose proof (tscmp_loop_zero a b 0 0 Hl) as Hz.
    destruct (tscmp_loop a b 0 0) as [res st]; simpl in *.
    f_equal; [|exact Hs].
    destruct (list_eq_dec Z.eq_dec a b) as [E|E].
    + apply Z.eqb_eq, Hz; auto.
    + apply Z.eqb_neq; intro H; apply Hz in H; tauto.
  - pose proof (tscmp_loop_steps b b 1 0 eq_refl) as Hs.
    pose proof (tscmp_loop_zero b b 1 0 eq_refl) as Hz.
    destruct (tscmp_loop b b 1 0) as [res st]; simpl in *.
    f_equal; [|exact Hs].
    destruct (list_eq_dec Z.eq_dec a b) as [E|E]; [subst; tauto|].
    apply Z.eqb_neq; intro H; apply Hz in H; lia.
Qed.

Lemma compare_digest_trace_eq a b :
  compare_digest_trace a b =
  if is_ascii_str a && is_ascii_str b
  then Ok (String.eqb a b, String.length b)
  else Raise TypeError.
Proof.
  unfold compare_digest_trace.
  destruct (is_ascii_str a && is_ascii_str b); [|reflexivity].
  rewrite tscmp_spec, bytes_of_length.
  destruct (list_eq_dec Z.eq_dec (bytes_of a) (bytes_of b)) as [E|E];
    destruct (String.eqb_spec a b) as [E'|E']; subst; auto.
  - apply bytes_of_inj in E; contradiction.
  - contradiction.
Qed.

Lemma compare_digest_true a b :
  compare_digest a b = Ok true <-> is_ascii_str a = true /\ a = b.
Proof.
  unfold compare_digest; rewrite compare_digest_trace_eq.
  destruct (is_ascii_str a) eqn:Ha, (is_ascii_str b) eqn:Hb; simpl;
    destruct (String.eqb_spec a b) as [E|E]; subst;
    split; intros H; try discriminate; try (destruct H; congruence); auto.
Qed.

Lemma hex_digit_hex v : 0 <= v < 16 -> contains (hex_digit v) hex_chars = true.
Proof.
  intro H.
  assert (v = 0 \/ v = 1 \/ v = 2 \/ v = 3 \/ v = 4 \/ v = 5 \/ v = 6 \/ v = 7 \/
          v = 8 \/ v = 9 \/ v = 10 \/ v = 11 \/ v = 12 \/ v = 13 \/ v = 14 \/ v = 15)
    as Hv by lia.
  repeat destruct Hv as [Hv|Hv]; subst; reflexivity.
Qed.

Lemma land_255_range x : 0 <= Z.land x 255 < 256.
Proof.
  change 255 with (Z.ones 8).
  rewrite Z.land_ones by lia.
  apply Z.mod_pos_bound; lia.
Qed.

Lemma sha256_bytes_range m x : In x (sha256 m) -> 0 <= x < 256.
Proof.
  unfold sha256; intro H.
  apply in_flat_map in H as [w [_ H]].
  unfold be_bytes in H; apply in_map_iff in H as [i [<- _]].
  apply land_255_range.
Qed.

Lemma hexdigest_hex bs :
  (forall x, In x bs -> 0 <= x < 256) -> is_hex (hexdigest bs) = true.
Proof.
  intro Hr; unfold is_hex, hexdigest.
  rewrite list_ascii_of_string_of_list_ascii.
  apply forallb_forall; intros c Hc.
  apply in_flat_map in Hc as [b [Hb Hc]].
  specialize (Hr b Hb).
  destruct Hc as [<-|[<-|[]]]; apply hex_digit_hex.
  - rewrite Z.shiftr_div_pow2 by lia.
    split; [apply Z.div_pos; lia|apply Z.div_lt_upper_bound; lia].
  - change 15 with (Z.ones 4); rewrite Z.land_ones by lia.
    apply Z.mod_pos_bound; lia.
Qed.

Lemma expected_signature_hex secret ts body :
  is_hex (expected_signature secret ts body) = true.
Proof.
  apply hexdigest_hex; intros x Hx.
  unfold hmac_sha256 in Hx; eapply sha256_bytes_range; exact Hx.
Qed.

Lemma is_hex_no_eq s : is_hex s = true -> contains "=" s = false.
Proof.
  induction s as [|c s IH]; [reflexivity|].
  unfold is_hex; cbn [list_ascii_of_string forallb contains]; intro H.
  apply andb_true_iff in H as [Hc Hs].
  rewrite (IH Hs), orb_false_r.
  destruct (Ascii.eqb_spec "=" c) as [<-|]; [discriminate|reflexivity].
Qed.

Lemma is_hex_ascii s : is_hex s = true -> is_ascii_str s = true.
Proof.
  induction s as [|c s IH]; [reflexivity|].
  unfold is_hex, is_ascii_str in *; cbn [list_ascii_of_string forallb]; intro H.
  apply andb_true_iff in H as [Hc Hs].
  rewrite (IH Hs), andb_true_r.
  unfold hex_chars in Hc; cbn [contains] in Hc.
  repeat (apply orb_true_iff in Hc as [Hc|Hc];
          [apply Ascii.eqb_eq in Hc; subst; reflexivity|]); discriminate.
Qed.








Lemma split_no_eq s : contains "=" s = false -> split "=" s = [s].
Proof.
  induction s as [|c s IH]; [reflexivity|].
  cbn [contains split]; intro H.
  apply orb_false_iff in H as [Hc Hs].
  rewrite (IH Hs).
  destruct (Ascii.eqb_spec c "=") as [->|]; [discriminate|reflexivity].
Qed.

Lemma split_app_eq L R :
  contains "=" L = false -> split "=" (L ++ String "=" R) = L :: split "=" R.
Proof.
  induction L as [|c L IH]; [reflexivity|].
  cbn [contains split append]; intro H.
  apply orb_false_iff in H as [Hc Hs].
  rewrite (IH Hs).
  destruct (Ascii.eqb_spec c "=") as [->|]; [discriminate|reflexivity].
Qed.

Lemma split_head R : exists rest, split "=" R = upto_eq R :: rest.
Proof.
  induction R as [|c R [rest IH]]; [exists []; reflexivity|].
  cbn [split upto_eq]; rewrite IH.
  destruct (Ascii.eqb_spec c "=") as [->|]; simpl; eauto.
Qed.

Lemma contains_decomp s :
  contains "=" s = true ->
  exists L R, s = (L ++ String "=" R)%string /\ contains "=" L = false.
Proof.
  induction s as [|c s IH]; [discriminate|].
  cbn [contains]; intro H.
  destruct (Ascii.eqb_spec "=" c) as [<-|Hc].
  - exists EmptyString, s; auto.
  - destruct (IH H) as [L [R [-> HL]]].
    exists (String c L), R; split; [reflexivity|].
    cbn [contains]; rewrite HL, orb_false_r.
    destruct (Ascii.eqb_spec "=" c); [contradiction|reflexivity].
Qed.

Lemma after_first_eq_app L R :
  contains "=" L = false -> after_first_eq (L ++ String "=" R) = R.
Proof.
  induction L as [|c L IH]; [reflexivity|].
  cbn [contains after_first_eq append]; intro H.
  apply orb_false_iff in H as [Hc Hs].
  destruct (Ascii.eqb_spec c "=") as [->|]; [discriminate|auto].
Qed.

Lemma provided_prefixed L R :
  contains "=" L = false ->
  provided_signature (L ++ String "=" R) = Ok (upto_eq R).
Proof.
  intro HL; unfold provided_signature.
  assert (Hc : contains "=" (L ++ String "=" R) = true).
  { clear HL; induction L as [|c L IH]; cbn [contains append].
    - reflexivity.
    - rewrite IH, orb_true_r; reflexivity. }
  rewrite Hc, (split_app_eq L R HL).
  destruct (split_head R) as [rest ->]; reflexivity.
Qed.

Lemma provided_bare s : contains "=" s = false -> provided_signature s = Ok s.
Proof. intro H; unfold provided_signature; rewrite H; reflexivity. Qed.

Lemma upto_eq_no_eq s : contains "=" s = false -> upto_eq s = s.
Proof.
  induction s as [|c s IH]; [reflexivity|].
  cbn [contains upto_eq]; intro H.
  apply orb_false_iff in H as [Hc Hs].
  rewrite (IH Hs).
  destruct (Ascii.eqb_spec c "=") as [->|]; [discriminate|reflexivity].
Qed.

Lemma upto_eq_length s : (String.length (upto_eq s) <= String.length s)%nat.
Proof.
  induction s as [|c s IH]; [reflexivity|].
  cbn [upto_eq]; destruct (Ascii.eqb c "="); simpl; lia.
Qed.


(** Whatever the header, the compared digest is the field after the first
    '=' up to the next one, or the whole header. *)
Lemma provided_signature_eq s :
  provided_signature s =
  Ok (if contains "=" s then upto_eq (after_first_eq s) else s).
Proof.
  destruct (contains "=" s) eqn:H.
  - destruct (contains_decomp s H) as [L [R [-> HL]]].
    rewrite provided_prefixed, after_first_eq_app by exact HL; reflexivity.
  - apply provided_bare; exact H.
Qed.

Lemma string_length_app s t :
  String.length (s ++ t) = (String.length s + String.length t)%nat.
Proof. induction s as [|c s IH]; simpl; auto. Qed.

Lemma provided_length s x :
  provided_signature s = Ok x -> (String.length x <= String.length s)%nat.
Proof.
  rewrite provided_signature_eq; intro H; injection H as <-.
  destruct (contains "=" s) eqn:Hc; [|lia].
  destruct (contains_decomp s Hc) as [L [R [-> HL]]].
  rewrite after_first_eq_app by exact HL.
  rewrite string_length_app; simpl.
  pose proof (upto_eq_length R); lia.
Qed.

Lemma verify_congr body s1 s2 ts secret now :
  provided_signature s1 = provided_signature s2 ->
  verify_webhook_signature body s1 ts secret now =
  verify_webhook_signature body s2 ts secret now.
Proof. intro H; unfold verify_webhook_signature; rewrite H; reflexivity. Qed.

(** When [verify] accepts. *)
Lemma verify_true_iff body sig ts secret now :
  verify_webhook_signature body sig ts secret now = Ok true <->
  exists n, int ts = Ok n /\ Z.abs n < float_overflow_bound /\
    Qle_bool (Qabs (now - inject_Z n)) tolerance = true /\
    provided_signature sig = Ok (expected_signature secret ts body).
Proof.
  unfold verify_webhook_signature, bind, float_of_int.
  destruct (int ts) as [n|e]; [|split; [discriminate|intros [n [H _]]; discriminate]].
  destruct (Z.leb_spec float_overflow_bound (Z.abs n)) as [Hb|Hb].
  { split; [discriminate|]. intros [m [Hm [Hm' _]]]; injection Hm as <-; lia. }
  destruct (Qle_bool (Qabs (now - inject_Z n)) tolerance) eqn:Hq; cbn [negb].
  2:{ split; [discriminate|]. intros [m [Hm [_ [Hm' _]]]]; injection Hm as <-; congruence. }
  destruct (provided_signature sig) as [x|e].
  - rewrite compare_digest_true.
    pose proof (is_hex_ascii _ (expected_signature_hex secret ts body)) as Ha.
    split.
    + intros [_ ->]; exists n; auto.
    + intros [m [Hm [_ [_ Hx]]]]; injection Hx as ->; auto.
  - split; [discriminate|]. intros [m [_ [_ [_ Hx]]]]; discriminate.
Qed.

(** A fresh timestamp read against a float clock fits in a float. *)
Lemma fresh_not_overflow now n :
  (Qabs now <= max_double)%Q -> (Qabs (now - inject_Z n) <= tolerance)%Q ->
  Z.abs n < float_overflow_bound.
Proof.
  intros Hnow Hfresh.
  assert (H : (Qabs (inject_Z n) <= max_double + tolerance)%Q).
  { setoid_replace (inject_Z n) with (now + - (now - inject_Z n))%Q by ring.
    eapply Qle_trans; [apply Qabs_triangle|].
    rewrite Qabs_opp; apply Qplus_le_compat; assumption. }
  change (Qabs (inject_Z n)) with (inject_Z (Z.abs n)) in H.
  unfold max_double, tolerance in H.
  rewrite <- inject_Z_plus, <- Zle_Qle in H.
  assert (Hlt : 2 ^ 1024 - 2 ^ 971 + 300 < float_overflow_bound)
    by (vm_compute; reflexivity).
  set (M := 2 ^ 1024 - 2 ^ 971) in *.
  set (B := float_overflow_bound) in *.
  clearbody M B; lia.
Qed.








End WebhookFacts.

(** * [int()] on long digit strings *)
Module IntFacts.
Import Py.
Local Open Scope Z_scope.

(** [int()] on a text of ASCII digits: above [int_max_str_digits] digits
    it raises ValueError. *)
Lemma digit_byte c : is_digit c = true -> 48 <= byte_of c <= 57.
Proof. unfold is_digit; intro H; apply andb_true_iff in H as [H1 H2]; lia. Qed.

Lemma byte_of_roundtrip c : ascii_of_N (Z.to_N (byte_of c)) = c.
Proof. unfold byte_of; rewrite N2Z.id; apply ascii_N_embedding. Qed.

Lemma digits_ascii_text t :
  all_digits t = true -> to_ascii_text (code_points t) = t.
Proof.
  induction t as [|c t IH]; [reflexivity|].
  unfold all_digits; cbn [list_ascii_of_string forallb]; intro H.
  apply andb_true_iff in H as [Hc Ht].
  pose proof (digit_byte c Hc) as Hb.
  cbn [code_points]. replace (byte_of c <? 128) with true by lia.
  cbn [to_ascii_text]. replace ((0 <=? byte_of c) && (byte_of c <? 127)) with true by lia.
  rewrite byte_of_roundtrip, IH by exact Ht; reflexivity.
Qed.

Lemma scan_all_digits t acc d :
  all_digits t = true ->
  exists v, scan_digits t acc d false = Some (v, d + Z.of_nat (String.length t), EmptyString).
Proof.
  revert acc d; induction t as [|c t IH]; intros acc d.
  - intros _; exists acc; cbn [scan_digits String.length Z.of_nat]; rewrite Z.add_0_r; reflexivity.
  - unfold all_digits; cbn [list_ascii_of_string forallb]; intro H.
    apply andb_true_iff in H as [Hc Ht].
    cbn [scan_digits]; rewrite Hc.
    destruct (IH (acc * 10 + (byte_of c - 48)) (d + 1) Ht) as (v & Hv).
    exists v; rewrite Hv; cbn [String.length]; do 3 f_equal; lia.
Qed.

Lemma digit_not_special c :
  is_digit c = true ->
  is_space c = false /\ Ascii.eqb c "+" = false /\ Ascii.eqb c "-" = false /\
  Ascii.eqb c "_" = false.
Proof.
  intro H; pose proof (digit_byte c H) as Hb.
  unfold is_space; repeat split.
  - apply orb_false_iff; split; [apply Z.eqb_neq; lia|]; apply andb_false_iff; right; apply Z.leb_gt; lia.
  - destruct (Ascii.eqb_spec c "+") as [->|]; [unfold byte_of in Hb; simpl in Hb; lia|reflexivity].
  - destruct (Ascii.eqb_spec c "-") as [->|]; [unfold byte_of in Hb; simpl in Hb; lia|reflexivity].
  - destruct (Ascii.eqb_spec c "_") as [->|]; [unfold byte_of in Hb; simpl in Hb; lia|reflexivity].
Qed.

Lemma int_too_many_digits t :
  all_digits t = true -> int_max_str_digits < Z.of_nat (String.length t) ->
  int t = Raise ValueError.
Proof.
  intros Hd Hl; unfold int; rewrite digits_ascii_text by exact Hd.
  destruct t as [|c r]; [cbv in Hl; discriminate|].
  pose proof Hd as Hd'; unfold all_digits in Hd'; cbn [list_ascii_of_string forallb] in Hd'.
  apply andb_true_iff in Hd' as [Hc _].
  destruct (digit_not_special c Hc) as (Hs & Hp & Hm & Hu).
  unfold long_from_string; cbn [lstrip]; rewrite Hs, Hp, Hm, Hu.
  destruct (scan_all_digits (String c r) 0 0 Hd) as (v & ->).
  replace (int_max_str_digits <? 0 + Z.of_nat (String.length (String c r))) with true by lia.
  reflexivity.
Qed.

End IntFacts.


(** * The claims on verify_webhook_signature *)
Module WebhookClaims.
Import Sha256 Webhook SpecDefs WebhookFacts.

(** C1: for every secret, body and integer timestamp within 300 seconds of
    the clock (a float, so [|now|] is at most the largest double), the
    lowercase-hex HMAC-SHA256 of "{timestamp}.{body}" keyed by the secret
    is accepted. *)
Theorem verify_accepts_correct_signature body secret timestamp n now :
  int timestamp = Ok n ->
  (Qabs now <= max_double)%Q ->
  (Qabs (now - inject_Z n) <= tolerance)%Q ->
  verify_webhook_signature body
    (hexdigest (hmac_sha256 (bytes_of secret)
                            (bytes_of (timestamp ++ "." ++ body)%string)))
    timestamp secret now = Ok true.
Proof.
  intros Hn Hnow Hfresh.
  apply verify_true_iff; exists n; repeat split.
  - exact Hn.
  - eapply fresh_not_overflow; eauto.
  - apply Qle_bool_iff; exact Hfresh.
  - apply provided_bare, is_hex_no_eq, expected_signature_hex.
Qed.

Lemma verify_accepts_correct_signature_witness :
  verify_webhook_signature sample_body sample_signature sample_timestamp
    sample_secret sample_now = Ok true.
Proof.
  apply (verify_accepts_correct_signature sample_body sample_secret
           sample_timestamp 1760000000 sample_now).
  - vm_compute; reflexivity.
  - apply Qle_bool_iff; vm_compute; reflexivity.
  - apply Qle_bool_iff; vm_compute; reflexivity.
Defined.

(** C2, counterexample: a timestamp 10^400, far outside the window, makes
    [verify_webhook_signature] raise OverflowError (the int does not fit in
    a float) instead of returning false. *)
Lemma verify_stale_counterexample :
  int big_timestamp = Ok (10 ^ 400) /\
  (tolerance < Qabs (sample_now - inject_Z (10 ^ 400)))%Q /\
  verify_webhook_signature sample_body sample_signature big_timestamp
    sample_secret sample_now = Raise OverflowError.
Proof.
  split; [vm_compute; reflexivity|].
  split; [vm_compute; reflexivity|].
  vm_compute; reflexivity.
Qed.

(** C2, amended: for a timestamp header that [int()] parses to [n] with
    [|now - n| > 300], [verify_webhook_signature] returns false whatever
    the signature, unless [n] is too large for a float
    ([|n| >= 2^1024 - 2^970]), in which case it raises OverflowError; a
    timestamp of more than 4300 ASCII digits is refused by [int()] itself
    ([sys.get_int_max_str_digits()]), and [verify_webhook_signature]
    raises ValueError. *)
Theorem verify_rejects_stale body signature timestamp secret now :
  (forall n, int timestamp = Ok n ->
   (tolerance < Qabs (now - inject_Z n))%Q ->
   verify_webhook_signature body signature timestamp secret now =
     if Z.leb float_overflow_bound (Z.abs n) then Raise OverflowError else Ok false) /\
  (all_digits timestamp = true ->
   int_max_str_digits < Z.of_nat (String.length timestamp) ->
   verify_webhook_signature body signature timestamp secret now = Raise ValueError).
Proof.
  split.
  - intros n Hn Hstale.
    unfold verify_webhook_signature, bind, float_of_int; rewrite Hn.
    destruct (Z.leb float_overflow_bound (Z.abs n)); [reflexivity|].
    destruct (Qle_bool (Qabs (now - inject_Z n)) tolerance) eqn:Hq; [|reflexivity].
    apply Qle_bool_iff in Hq; apply Qlt_not_le in Hstale; contradiction.
  - intros Hd Hl.
    unfold verify_webhook_signature, bind; rewrite IntFacts.int_too_many_digits by assumption.
    reflexivity.
Qed.

(** The spec's scenario: the same digest with the timestamp 301 seconds
    older is rejected; a 4301-digit timestamp raises ValueError. *)
Lemma verify_rejects_stale_witness :
  verify_webhook_signature sample_body sample_signature "1759999699"
    sample_secret sample_now = Ok false /\
  verify_webhook_signature sample_body sample_signature huge_timestamp
    sample_secret sample_now = Raise ValueError.
Proof.
  split.
  - rewrite (proj1 (verify_rejects_stale sample_body sample_signature "1759999699"
                      sample_secret sample_now) 1759999699).
    + vm_compute; reflexivity.
    + vm_compute; reflexivity.
    + vm_compute; reflexivity.
  - apply (proj2 (verify_rejects_stale sample_body sample_signature huge_timestamp
                    sample_secret sample_now)).
    + vm_compute; reflexivity.
    + vm_compute; reflexivity.
Defined.




(** C5, counterexample: for the header "sha256=ab=cd" the code compares
    "ab", not the text "ab=cd" after the first '='. *)
Lemma provided_signature_counterexample :
  provided_signature "sha256=ab=cd" = Ok "ab" /\
  spec_provided_signature "sha256=ab=cd" = "ab=cd" /\
  provided_signature "sha256=ab=cd" <> Ok (spec_provided_signature "sha256=ab=cd").
Proof.
  split; [reflexivity|]. split; [reflexivity|].
  vm_compute; discriminate.
Qed.

(** C5, amended: for a header containing '=', the digest compared is the
    text after the first '=' up to the next '=' (or the end); for a header
    with no '=', it is the whole header. *)
Theorem provided_signature_segment s :
  provided_signature s =
  Ok (if contains "=" s then upto_eq (after_first_eq s) else s).
Proof. exact (provided_signature_eq s). Qed.

(** C6: a bare hex digest and the same digest behind a scheme label and
    '=' give the same verification outcome. *)
Theorem verify_bare_vs_prefixed body timestamp secret now label d :
  contains "=" label = false -> is_hex d = true ->
  verify_webhook_signature body d timestamp secret now =
  verify_webhook_signature body (label ++ "=" ++ d)%string timestamp secret now.
Proof.
  intros HL Hd; apply verify_congr.
  change ((label ++ "=" ++ d)%string) with ((label ++ String "=" d)%string).
  rewrite provided_bare by (apply is_hex_no_eq; exact Hd).
  rewrite provided_prefixed by exact HL.
  rewrite upto_eq_no_eq by (apply is_hex_no_eq; exact Hd).
  reflexivity.
Qed.

Lemma verify_bare_vs_prefixed_witness :
  verify_webhook_signature sample_body sample_signature sample_timestamp
    sample_secret sample_now =
  verify_webhook_signature sample_body ("sha256" ++ "=" ++ sample_signature)%string
    sample_timestamp sample_secret sample_now.
Proof.
  apply verify_bare_vs_prefixed; vm_compute; reflexivity.
Defined.

(** C8: the digest comparison, [hmac.compare_digest], answers string
    equality (or TypeError on non-ASCII text) after a loop that runs over
    every byte of the provided digest: the iteration count is its length,
    whatever the position of the first mismatch. *)
Theorem compare_digest_no_short_circuit a b :
  compare_digest_trace a b =
    (if is_ascii_str a && is_ascii_str b
     then Ok (String.eqb a b, String.length b) else Raise TypeError) /\
  (forall b', String.length b' = String.length b ->
     snd (tscmp (bytes_of a) (bytes_of b')) = snd (tscmp (bytes_of a) (bytes_of b))).
Proof.
  split; [apply compare_digest_trace_eq|].
  intros b' Hl; rewrite !tscmp_spec; simpl.
  rewrite !bytes_of_length; exact Hl.
Qed.




End WebhookClaims.

(** * The claim on handle_vloex_webhook *)
Module HandlerClaims.
Import Webhook SpecDefs.

(** C4, counterexample: with the secret configured, a delivery without a
    signature header is processed and acknowledged with 200. *)
Lemma handler_unsigned_counterexample :
  truthy sample_secret = true /\
  handle_vloex_webhook sample_secret sample_now unsigned_request =
    ([VideoCompleted (Some "job_abc123"); VideoURL (Some "https://x/y.mp4")], Ok ok_200).
Proof. split; vm_compute; reflexivity. Qed.

(** C4, amended: a delivery whose signature header is missing or empty is
    not verified, whatever the secret: it is processed as without a
    secret, and answered 200 when its body is a JSON object sent with a
    JSON Content-Type.  The handler answers 401 exactly when a secret is
    configured, the signature header is non-empty and verification
    returns false, and then without processing the payload. *)
Theorem handler_signature_gate secret now req :
  (header_get (sig_header req) "" = "" ->
   handle_vloex_webhook secret now req = process req) /\
  (content_is_json req = true -> forall payload, body_json req = Object payload ->
   snd (process req) = Ok ok_200) /\
  ((exists logs r, handle_vloex_webhook secret now req = (logs, Ok r) /\ status_code r = 401) <->
   (truthy secret = true /\ header_get (sig_header req) "" <> "" /\
    verify_webhook_signature (raw_body req) (header_get (sig_header req) "")
      (header_get (ts_header req) "") secret now = Ok false)) /\
  (truthy secret = true -> header_get (sig_header req) "" <> "" ->
   verify_webhook_signature (raw_body req) (header_get (sig_header req) "")
     (header_get (ts_header req) "") secret now = Ok false ->
   handle_vloex_webhook secret now req = ([InvalidSignature], Ok invalid_401)).
Proof.
  assert (Hp : forall logs r, process req = (logs, Ok r) -> r = ok_200).
  { intros logs r; unfold process.
    destruct (get_json req) as [[| |payload]|e]; intro H; try discriminate.
    injection H as _ <-; reflexivity. }
  assert (Hgate : truthy secret = true -> header_get (sig_header req) "" <> "" ->
    verify_webhook_signature (raw_body req) (header_get (sig_header req) "")
      (header_get (ts_header req) "") secret now = Ok false ->
    handle_vloex_webhook secret now req = ([InvalidSignature], Ok invalid_401)).
  { intros Hs Hsig Hv; unfold handle_vloex_webhook.
    rewrite Hs, Hv.
    unfold truthy at 1; destruct (String.eqb_spec (header_get (sig_header req) "") "");
      [contradiction|reflexivity]. }
  split; [|split; [|split]].
  - intro H; unfold handle_vloex_webhook; rewrite H.
    unfold truthy at 2; rewrite andb_false_r; reflexivity.
  - intros Hj payload H; unfold process, get_json; rewrite Hj, H; reflexivity.
  - split.
    + intros (logs & r & E & H401).
      unfold handle_vloex_webhook in E.
      destruct (truthy secret && truthy (header_get (sig_header req) "")) eqn:Hg.
      * apply andb_true_iff in Hg as [Hs Hsig].
        split; [exact Hs|split].
        { unfold truthy in Hsig; destruct (String.eqb_spec (header_get (sig_header req) "") "");
            [discriminate|assumption]. }
        destruct (verify_webhook_signature _ _ _ _ _) as [[|]|e]; [|reflexivity|discriminate].
        apply Hp in E; subst r; discriminate.
      * apply Hp in E; subst r; discriminate.
    + intros (Hs & Hsig & Hv); exists [InvalidSignature], invalid_401.
      split; [exact (Hgate Hs Hsig Hv)|reflexivity].
  - exact Hgate.
Qed.

Lemma handler_signature_gate_witness :
  handle_vloex_webhook sample_secret sample_now unsigned_request = process unsigned_request /\
  snd (process unsigned_request) = Ok ok_200 /\
  handle_vloex_webhook sample_secret sample_now forged_request =
    ([InvalidSignature], Ok invalid_401).
Proof.
  split; [|split].
  - apply (proj1 (handler_signature_gate sample_secret sample_now unsigned_request)).
    reflexivity.
  - apply (proj1 (proj2 (handler_signature_gate sample_secret sample_now unsigned_request))
             eq_refl sample_payload).
    reflexivity.
  - apply (proj2 (proj2 (proj2 (handler_signature_gate sample_secret sample_now forged_request))));
      vm_compute; [reflexivity|discriminate|reflexivity].
Defined.

End HandlerClaims.

(** * The claims on the client *)
Module ClientClaims.
Import Client SpecDefs.

(** C9: [Vloex(api_key)] raises ValueError when the key is None (how a
    missing key arrives, e.g. from [os.getenv]) or empty, and otherwise
    stores the given key and base URL unchanged. *)
Theorem Vloex_init_spec base_url :
  Vloex_init None base_url = Raise ValueError /\
  Vloex_init (Some "") base_url = Raise ValueError /\
  (forall key, key <> "" ->
     Vloex_init (Some key) base_url = Ok {| api_key := key; base_url := base_url |}).
Proof.
  split; [reflexivity|]. split; [reflexivity|].
  intros key Hk; unfold Vloex_init.
  destruct (String.eqb_spec key "") as [E|E]; [contradiction|reflexivity].
Qed.

Lemma Vloex_init_spec_witness :
  Vloex_init (Some "sk_test_123") DEFAULT_BASE_URL = Ok sample_client.
Proof.
  apply (proj2 (proj2 (Vloex_init_spec DEFAULT_BASE_URL)) "sk_test_123").
  discriminate.
Defined.

(** C10: when [product_context] is missing (its default None), None or
    empty, [from_journey] raises ValueError and leaves the list of sent
    HTTP requests unchanged. *)
Theorem from_journey_requires_context server self screenshots descriptions
    product_url pages product_context step_duration avatar_position tone
    webhook_url webhook_secret options sent :
  (product_context = None \/ product_context = Some "") ->
  from_journey server self screenshots descriptions product_url pages
    product_context step_duration avatar_position tone webhook_url webhook_secret
    options sent = (sent, Fail (PyExc ValueError)).
Proof. intros [-> | ->]; reflexivity. Qed.

Lemma from_journey_requires_context_witness :
  from_journey sample_server sample_client (Some ["img1"]) None None None
    (Some "") 15 "bottom-right" "professional" None None [] [] = ([], Fail (PyExc ValueError)).
Proof. apply from_journey_requires_context; right; reflexivity. Defined.

End ClientClaims.

(** * Sanity checks of the client model *)
Module ClientExamples.
Import Client SpecDefs.

(** With a product context, exactly one POST to /v1/videos/from-journey is
    sent and its answer is reshaped. *)
Example from_journey_sends_one_request :
  from_journey sample_server sample_client (Some ["img1"]) (Some ["Login page"]) None None
    (Some "My Product Demo") 15 "bottom-right" "professional" None None [] [] =
  ([{| req_method := "POST";
       req_url := "https://api.vloex.com/v1/videos/from-journey";
       req_headers := [("Authorization", "Bearer sk_test_123");
                       ("Content-Type", "application/json")];
       req_json := Some [("product_context", JStr "My Product Demo");
                         ("step_duration", JInt 15);
                         ("avatar_position", JStr "bottom-right");
                         ("tone", JStr "professional");
                         ("screenshots", JList [JStr "img1"]);
                         ("descriptions", JList [JStr "Login page"])];
       req_timeout := 60 |}],
   Done (JObj [("id", JStr "job_abc123"); ("status", JStr "queued");
               ("created_at", JNull); ("updated_at", JNull)])).
Proof. vm_compute; reflexivity. Qed.

(** [**options] overrides an explicit keyword of the same name in place. *)
Example from_journey_options_override :
  match from_journey sample_server sample_client None None None None
    (Some "Demo") 15 "bottom-right" "professional" None None [("tone", JStr "casual")] [] with
  | ([r], _) => req_json r
  | _ => None
  end =
  Some [("product_context", JStr "Demo"); ("step_duration", JInt 15);
        ("avatar_position", JStr "bottom-right"); ("tone", JStr "casual")].
Proof. vm_compute; reflexivity. Qed.

End ClientExamples.


(** * Facts about the [str] operations *)
Module TextFacts.
Import Py Text ExtraDefs.

Lemma string_app_assoc (a b c : string) : ((a ++ b) ++ c)%string = (a ++ b ++ c)%string.
Proof. induction a as [|x a IH]; simpl; [reflexivity|now rewrite IH]. Qed.

Lemma string_app_nil_r (a : string) : (a ++ "")%string = a.
Proof. induction a as [|x a IH]; simpl; [reflexivity|now rewrite IH]. Qed.

Lemma chars_String c r :
  chars (String c r) =
  match chars r with
  | String d g :: gs =>
      if is_cont d then String c (String d g) :: gs
      else String c EmptyString :: String d g :: gs
  | gs => String c EmptyString :: gs
  end.
Proof. reflexivity. Qed.

Lemma chars_cons c r : exists g gs, chars (String c r) = String c g :: gs.
Proof.
  rewrite chars_String.
  destruct (chars r) as [|[|d g] gs]; eauto.
  destruct (is_cont d); eauto.
Qed.

Lemma chars_nil s : chars s = [] -> s = EmptyString.
Proof.
  destruct s as [|c r]; [auto|].
  destruct (chars_cons c r) as (g & gs & E); rewrite E; discriminate.
Qed.

Lemma join_app l m : join (l ++ m) = (join l ++ join m)%string.
Proof.
  induction l as [|x l IH]; simpl; [reflexivity|].
  rewrite IH, string_app_assoc; reflexivity.
Qed.

Lemma chars_join s : join (chars s) = s.
Proof.
  induction s as [|c r IH]; [reflexivity|].
  rewrite chars_String.
  destruct (chars r) as [|[|d g] gs]; simpl in *.
  - now rewrite <- IH.
  - now rewrite IH.
  - destruct (is_cont d); simpl; now rewrite IH.
Qed.

Lemma chars_app a b : char_start b = true -> chars (a ++ b) = chars a ++ chars b.
Proof.
  intro Hb; induction a as [|c a IH]; [reflexivity|].
  change (String c a ++ b)%string with (String c (a ++ b)).
  rewrite !chars_String, IH.
  destruct (chars a) as [|x xs] eqn:Ea.
  - apply chars_nil in Ea; subst a; simpl.
    destruct b as [|d r]; [reflexivity|].
    simpl in Hb; destruct (chars_cons d r) as (g & gs & E); rewrite E.
    destruct (is_cont d); [discriminate|reflexivity].
  - destruct x as [|d g]; [reflexivity|]; simpl.
    destruct (is_cont d); reflexivity.
Qed.

Lemma chars_ascii c r :
  is_cont c = false -> char_start r = true -> chars (String c r) = String c "" :: chars r.
Proof.
  intros Hc Hr; change (String c r) with (String c "" ++ r)%string.
  rewrite chars_app by exact Hr.
  reflexivity.
Qed.

Lemma chars_snoc p c : is_cont c = false -> chars (p ++ String c "") = chars p ++ [String c ""].
Proof.
  intro Hc; rewrite chars_app by (simpl; rewrite Hc; reflexivity); reflexivity.
Qed.

Lemma chars_unit c t y :
  all_cont t = true -> char_start y = true -> chars (String c t ++ y) = String c t :: chars y.
Proof.
  revert c; induction t as [|d t IH]; intros c Ht Hy.
  - change (String c "" ++ y)%string with (String c y); rewrite chars_String.
    destruct y as [|e r]; [reflexivity|].
    simpl in Hy; destruct (chars_cons e r) as (g & gs & E); rewrite E.
    destruct (is_cont e); [discriminate|reflexivity].
  - unfold all_cont in Ht; simpl in Ht; apply andb_true_iff in Ht as [Hd Ht].
    change (String c (String d t) ++ y)%string with (String c (String d t ++ y)).
    rewrite chars_String, IH by assumption; rewrite Hd; reflexivity.
Qed.

Lemma chars_char_list s : char_list (chars s).
Proof.
  induction s as [|c r [IH1 IH2]]; [split; constructor|].
  rewrite chars_String.
  destruct (chars r) as [|[|d g] gs] eqn:E.
  - split; repeat constructor; exists c, ""; auto.
  - inversion IH1 as [|? ? (? & ? & H & _)]; discriminate.
  - inversion IH1 as [|? ? (c' & t' & H & Ht) Hgs]; subst.
    injection H as <- <-.
    destruct (is_cont d) eqn:Hd; split; simpl in *.
    + constructor; [|exact Hgs]. exists c, (String d g); split; [reflexivity|].
      unfold all_cont; simpl; rewrite Hd; exact Ht.
    + exact IH2.
    + constructor; [exists c, ""; auto|]. constructor; [exists d, g; auto|exact Hgs].
    + constructor; [simpl; rewrite Hd; reflexivity|exact IH2].
Qed.

Lemma Forall_tl {A} (P : A -> Prop) l : Forall P l -> Forall P (tl l).
Proof. destruct 1; simpl; auto. Qed.

Lemma char_list_suffix pre m : char_list (pre ++ m) -> char_list m.
Proof.
  induction pre as [|x pre IH]; [auto|].
  intros [H1 H2]; apply IH; simpl in *.
  inversion H1; subst; split; [assumption|].
  apply Forall_tl; exact H2.
Qed.

Lemma char_list_prefix m post : char_list (m ++ post) -> char_list m.
Proof.
  intros [H1 H2]; apply Forall_app in H1 as [H1 _]; split; [exact H1|].
  destruct m as [|x m]; [constructor|].
  simpl in H2; apply Forall_app in H2 as [H2 _]; exact H2.
Qed.

Lemma chars_join_list l : char_list l -> chars (join l) = l.
Proof.
  induction l as [|x l IH]; [reflexivity|].
  intros [H1 H2]; inversion H1 as [|? ? (c & t & -> & Ht) Hl]; subst.
  simpl in H2; change (join (String c t :: l)) with (String c t ++ join l)%string.
  rewrite chars_unit by (exact Ht ||
    (destruct l as [|y l]; [reflexivity|];
     inversion H2 as [|? ? Hy]; subst;
     inversion Hl as [|? ? (e & u & -> & _)]; subst; exact Hy)).
  f_equal; apply IH; split; [exact Hl|apply Forall_tl; exact H2].
Qed.

(** drop_while *)
Lemma drop_while_app_stop {A} (p : A -> bool) l y m :
  p y = false -> drop_while p (l ++ y :: m) = drop_while p l ++ y :: m.
Proof.
  intro Hy; induction l as [|x l IH]; simpl; [now rewrite Hy|].
  destruct (p x); [exact IH|reflexivity].
Qed.

Lemma drop_while_app_exists {A} (p : A -> bool) l m :
  existsb (fun x => negb (p x)) l = true -> drop_while p (l ++ m) = drop_while p l ++ m.
Proof.
  induction l as [|x l IH]; simpl; [discriminate|].
  destruct (p x); simpl; [exact IH|reflexivity].
Qed.

Lemma drop_while_keep {A} (p : A -> bool) l :
  match l with x :: _ => p x = false | [] => True end -> drop_while p l = l.
Proof. destruct l as [|x l]; simpl; [reflexivity|]. intros ->; reflexivity. Qed.

Lemma drop_while_head {A} (p : A -> bool) l :
  match drop_while p l with x :: _ => p x = false | [] => True end.
Proof.
  induction l as [|x l IH]; simpl; [exact I|].
  destruct (p x) eqn:E; [exact IH|exact E].
Qed.

Lemma drop_while_suffix {A} (p : A -> bool) l : exists pre, l = pre ++ drop_while p l.
Proof.
  induction l as [|x l [pre IH]]; [exists []; reflexivity|]; simpl.
  destruct (p x); [exists (x :: pre); simpl; f_equal; exact IH|exists []; reflexivity].
Qed.

Lemma existsb_rev {A} (f : A -> bool) l : existsb f (rev l) = existsb f l.
Proof.
  induction l as [|x l IH]; simpl; [reflexivity|].
  rewrite existsb_app, IH; simpl; rewrite orb_false_r, orb_comm; reflexivity.
Qed.

(** [strip] *)
Lemma strip_idem s : strip (strip s) = strip s.
Proof.
  unfold strip at 2 3.
  set (K := drop_while isspace (chars s)).
  set (L := rev (drop_while isspace (rev K))).
  assert (HK : char_list K).
  { destruct (drop_while_suffix isspace (chars s)) as [pre E].
    apply (char_list_suffix pre); fold K in E; rewrite <- E; apply chars_char_list. }
  destruct (drop_while_suffix isspace (rev K)) as [pre E].
  assert (HKL : K = L ++ rev pre).
  { unfold L; rewrite <- rev_app_distr, <- E, rev_involutive; reflexivity. }
  assert (HL : char_list L) by (apply (char_list_prefix L (rev pre)); rewrite <- HKL; exact HK).
  unfold strip; rewrite chars_join_list by exact HL.
  rewrite (drop_while_keep isspace L).
  - unfold L; rewrite rev_involutive, (drop_while_keep isspace (drop_while isspace (rev K)))
      by apply drop_while_head.
    reflexivity.
  - pose proof (drop_while_head isspace (chars s)) as Hh; fold K in Hh.
    destruct L as [|x L']; [exact I|]. rewrite HKL in Hh; exact Hh.
Qed.

Lemma strip_solid_tail a b :
  char_start b = true ->
  (exists y ys, chars b = y :: ys /\ isspace y = false) ->
  (exists zs z, chars b = zs ++ [z] /\ isspace z = false) ->
  strip (a ++ b) = (join (drop_while isspace (chars a)) ++ b)%string.
Proof.
  intros Hb (y & ys & Ey & Hy) (zs & z & Ez & Hz).
  unfold strip; rewrite chars_app by exact Hb.
  rewrite Ey, drop_while_app_stop by exact Hy; rewrite <- Ey.
  set (D := drop_while isspace (chars a)).
  rewrite rev_app_distr, Ez, rev_app_distr; cbn [rev app].
  rewrite (drop_while_keep isspace (z :: _)) by exact Hz.
  replace (z :: rev zs ++ rev D) with (rev (D ++ chars b))
    by (rewrite Ez, !rev_app_distr; reflexivity).
  rewrite rev_involutive, join_app, chars_join; reflexivity.
Qed.

Lemma isspace_dash : isspace "-" = false.
Proof. reflexivity. Qed.

Lemma isspace_space : isspace " " = true.
Proof. reflexivity. Qed.

Lemma strip_dash x :
  char_start x = true -> existsb (fun c => negb (isspace c)) (chars x) = true ->
  strip ("- " ++ x) = ("- " ++ join (rev (drop_while isspace (rev (chars x)))))%string.
Proof.
  intros Hx Hne; unfold strip.
  rewrite chars_app by exact Hx.
  change (chars "- ") with ["-"; " "].
  rewrite (drop_while_keep isspace (["-"; " "] ++ chars x)) by exact isspace_dash.
  rewrite rev_app_distr, drop_while_app_exists by (rewrite existsb_rev; exact Hne).
  rewrite rev_app_distr; reflexivity.
Qed.

Lemma strip_dash_prefix x :
  char_start x = true -> existsb (fun c => negb (isspace c)) (chars x) = true ->
  String.prefix "- " (strip ("- " ++ x)) = true.
Proof. intros Hx Hne; rewrite strip_dash by assumption; simpl; destruct (join _); reflexivity. Qed.

Lemma drop_chars_dash x : char_start x = true -> drop_chars 2 ("- " ++ x) = x.
Proof.
  intro Hx; unfold drop_chars; rewrite chars_app by exact Hx.
  apply chars_join.
Qed.

Lemma strip_space s : char_start s = true -> strip (String " " s) = strip s.
Proof.
  intro Hs; unfold strip.
  rewrite chars_ascii by (reflexivity || exact Hs).
  change (drop_while isspace (String " " "" :: chars s)) with
    (if isspace " " then drop_while isspace (chars s) else String " " "" :: chars s).
  rewrite isspace_space; reflexivity.
Qed.

End TextFacts.


(** * Facts used for examples/github-release-video.py *)
Module ReleaseFacts.
Import Py Text ExtraDefs TextFacts.

Lemma split_no_sep sep y : contains sep y = false -> split sep y = [y].
Proof.
  induction y as [|c y IH]; [reflexivity|]; cbn [contains split].
  intro H; apply orb_false_iff in H as [H1 H2].
  rewrite IH by exact H2; rewrite Ascii.eqb_sym, H1; reflexivity.
Qed.

Lemma split_app_sep sep y rest :
  contains sep y = false -> split sep (y ++ String sep rest) = y :: split sep rest.
Proof.
  induction y as [|c y IH]; cbn [contains split append].
  - intros _; rewrite Ascii.eqb_refl; reflexivity.
  - intro H; apply orb_false_iff in H as [H1 H2].
    rewrite IH by exact H2; rewrite Ascii.eqb_sym, H1; reflexivity.
Qed.

Lemma string1_app c t : (String c "" ++ t)%string = String c t.
Proof. reflexivity. Qed.

Lemma split_concat_nl ys :
  ys <> [] -> Forall (fun y => contains nl_char y = false) ys ->
  split nl_char (String.concat nl ys) = ys.
Proof.
  induction ys as [|y ys IH]; [congruence|]; intros _ H.
  inversion H as [|? ? Hy Hys]; subst.
  destruct ys as [|z zs]; [apply split_no_sep; exact Hy|].
  change (String.concat nl (y :: z :: zs)) with (y ++ nl ++ String.concat nl (z :: zs))%string.
  unfold nl at 1; rewrite string1_app, split_app_sep by exact Hy.
  rewrite IH; [reflexivity|discriminate|exact Hys].
Qed.

Lemma filter_true {A} (f : A -> bool) l : Forall (fun x => f x = true) l -> filter f l = l.
Proof.
  induction 1 as [|x l Hx _ IH]; simpl; [reflexivity|].
  rewrite Hx, IH; reflexivity.
Qed.

Lemma in_slice_stop {A} (x : A) l stop : In x (slice_stop l stop) -> In x l.
Proof.
  unfold slice_stop; intro H.
  rewrite <- (firstn_skipn (Z.to_nat (if Z.ltb stop 0 then stop + Z.of_nat (List.length l)
                                      else stop)) l).
  apply in_or_app; left; exact H.
Qed.

Lemma chars_head_ascii c r :
  is_cont c = false -> char_start r = true -> isspace (String c "") = false ->
  exists y ys, chars (String c r) = y :: ys /\ isspace y = false.
Proof.
  intros Hc Hr Hs; rewrite chars_ascii by assumption; eauto.
Qed.

Lemma chars_last_solid p q c :
  is_cont c = false -> isspace (String c "") = false ->
  exists zs z, chars (p ++ q ++ String c "") = zs ++ [z] /\ isspace z = false.
Proof.
  intros Hc Hs; rewrite <- string_app_assoc, chars_snoc by exact Hc; eauto.
Qed.

End ReleaseFacts.


(** * Properties of examples/github-release-video.py: the text helpers *)
Module ReleaseTextProps.
Import Py Text ExtraDefs TextFacts ReleaseFacts ReleaseVideo.

(** Extra: the number of highlights is [max_items] capped by the number of
    bullet lines; a negative [max_items] drops that many from the end. *)
Theorem extract_release_highlights_length release_body max_items :
  let n := List.length (filter (fun line => String.prefix "- " (strip line))
                          (split nl_char release_body)) in
  List.length (extract_release_highlights release_body max_items) =
  if Z.ltb max_items 0 then (n - Z.to_nat (- max_items))%nat
  else Nat.min (Z.to_nat max_items) n.
Proof.
  intro n; unfold extract_release_highlights, slice_stop.
  rewrite length_firstn, length_map; fold n.
  destruct (Z.ltb_spec max_items 0); lia.
Qed.

(** Extra: every highlight is stripped: it neither starts nor ends with
    whitespace. *)
Theorem extract_release_highlights_stripped release_body max_items h :
  In h (extract_release_highlights release_body max_items) -> strip h = h.
Proof.
  unfold extract_release_highlights; intro H.
  apply in_slice_stop, in_map_iff in H as (line & <- & _).
  apply strip_idem.
Qed.

(** Extra: release notes made of bullet lines ["- " ++ x] give back the
    stripped items [x], cut at [max_items]. *)
Theorem extract_release_highlights_bullets xs max_items :
  Forall (fun x => contains nl_char x = false /\ char_start x = true /\
                   existsb (fun c => negb (isspace c)) (chars x) = true) xs ->
  extract_release_highlights (String.concat nl (map (fun x => "- " ++ x)%string xs)) max_items =
  slice_stop (map strip xs) max_items.
Proof.
  intro H; unfold extract_release_highlights.
  destruct xs as [|x0 xs0] eqn:Exs; [reflexivity|]; rewrite <- Exs in *.
  rewrite split_concat_nl.
  - rewrite filter_true.
    + rewrite map_map; f_equal; apply map_ext_in; intros x Hx.
      rewrite Forall_forall in H; destruct (H x Hx) as (_ & Hs & _).
      rewrite drop_chars_dash by exact Hs; reflexivity.
    + apply Forall_map; eapply Forall_impl; [|exact H].
      intros x (_ & Hs & Hne); apply strip_dash_prefix; assumption.
  - subst xs; discriminate.
  - apply Forall_map; eapply Forall_impl; [|exact H].
    intros x (Hn & _); exact Hn.
Qed.

Lemma extract_release_highlights_stripped_witness :
  In "Faster builds" (extract_release_highlights ("- Faster builds" ++ nl ++ "- Bug fixes")%string 5) /\
  strip "Faster builds" = "Faster builds".
Proof.
  split.
  - vm_compute; left; reflexivity.
  - apply (extract_release_highlights_stripped ("- Faster builds" ++ nl ++ "- Bug fixes")%string 5).
    vm_compute; left; reflexivity.
Defined.


(** Extra: a bullet indented by two spaces keeps its ["- "] marker in the
    highlight, since [line[2:]] cuts the indentation, not the marker. *)
Theorem extract_release_highlights_indented x max_items :
  contains nl_char x = false -> char_start x = true ->
  existsb (fun c => negb (isspace c)) (chars x) = true -> 1 <= max_items ->
  extract_release_highlights ("  - " ++ x) max_items = [strip ("- " ++ x)] /\
  String.prefix "- " (strip ("- " ++ x)) = true.
Proof.
  intros Hn Hs Hne Hk.
  assert (Hp : String.prefix "- " (strip ("- " ++ x)) = true)
    by (apply strip_dash_prefix; assumption).
  split; [|exact Hp].
  unfold extract_release_highlights.
  rewrite split_no_sep by exact Hn.
  change ("  - " ++ x)%string with (String " " (String " " ("- " ++ x))).
  cbn [filter]; rewrite !strip_space by reflexivity; rewrite Hp; cbn [map].
  unfold drop_chars; rewrite !chars_ascii by reflexivity; cbn [skipn].
  rewrite chars_join.
  unfold slice_stop; cbn [List.length]; replace (Z.ltb max_items 0) with false
    by (symmetry; apply Z.ltb_ge; lia).
  destruct (Z.to_nat max_items) eqn:E; [lia|]; cbn [firstn]; rewrite firstn_nil; reflexivity.
Qed.

Lemma extract_release_highlights_bullets_witness :
  extract_release_highlights
    (String.concat nl (map (fun x => "- " ++ x)%string ["Faster builds"; "Bug fixes "])) 1 =
  slice_stop (map strip ["Faster builds"; "Bug fixes "]) 1.
Proof.
  apply extract_release_highlights_bullets.
  repeat constructor.
Defined.

Lemma extract_release_highlights_indented_witness :
  extract_release_highlights ("  - " ++ "Fix crash") 5 = [strip ("- " ++ "Fix crash")] /\
  String.prefix "- " (strip ("- " ++ "Fix crash")) = true.
Proof.
  apply extract_release_highlights_indented; [reflexivity|reflexivity|reflexivity|lia].
Defined.

(** Extra: the script is the header with its leading whitespace removed,
    then the block of changes when there are any, then the closing
    sentence: [strip] never cuts into the changes or the closing sentence. *)
Theorem create_release_script_layout version changes repo_name :
  let header := (repo_name ++ " " ++ version ++ " has been released!" ++ nl ++ nl)%string in
  create_release_script version changes repo_name =
  (join (drop_while isspace (chars header)) ++
   match changes with
   | [] => ""
   | _ => "This release includes important updates:" ++ nl ++ nl
            ++ String.concat nl changes ++ nl ++ nl
   end ++ "Check out the full release notes on GitHub!")%string.
Proof.
  cbv zeta; unfold create_release_script.
  destruct changes as [|c cs].
  - rewrite strip_solid_tail; [reflexivity|reflexivity| |].
    + apply chars_head_ascii; reflexivity.
    + exists (chars "Check out the full release notes on GitHub"), "!"; split; reflexivity.
  - rewrite string_app_assoc, strip_solid_tail; [reflexivity|reflexivity| |].
    + apply chars_head_ascii; reflexivity.
    + match goal with
      | |- exists zs z, chars (?p ++ _) = _ /\ _ =>
          apply (chars_last_solid p "Check out the full release notes on GitHub" "!");
          reflexivity
      end.
Qed.

End ReleaseTextProps.


(** * Facts about the client of vloex/client.py *)
Module ClientFacts.
Import Py Client Scripts ExtraDefs.

Lemma request_unfold server self method path body key sent :
  _request server self method path body key sent =
  let req := request_for self method path body key in
  let response := server req in
  let data := match resp_json response with Some v => v | None => JObj [] end in
  (sent ++ [req],
   if negb (resp_ok response) then
     with_dict data (fun data =>
       Fail (VloexError (py_or (dict_get "detail" data)
                           (py_or (dict_get "message" data) (JStr "API request failed")))
                        (resp_status response)))
   else if in_str "/generate" path then
     with_dict data (fun data =>
       Done (JObj [("id", py_or (dict_get "job_id" data) (dict_get "id" data));
                   ("status", dict_get "status" data);
                   ("url", dict_get "url" data);
                   ("error", dict_get "error" data)]))
   else if in_str "/status" path then
     with_dict data (fun data =>
       Done (JObj [("id", dict_get "id" data);
                   ("status", dict_get "status" data);
                   ("url", py_or (dict_get "video_url" data) (dict_get "url" data));
                   ("error", py_or (dict_get "error_message" data) (dict_get "error" data))]))
   else if in_str "/from-journey" path then
     with_dict data (fun data =>
       Done (JObj [("id", dict_get "id" data);
                   ("status", dict_get "status" data);
                   ("created_at", dict_get "created_at" data);
                   ("updated_at", dict_get "updated_at" data)]))
   else Done data).
Proof.
  unfold _request, request_for; cbv zeta.
  repeat match goal with |- context [if ?b then _ else _] => destruct b end; reflexivity.
Qed.

Lemma request_sent server self method path body key sent :
  fst (_request server self method path body key sent) =
  sent ++ [request_for self method path body key].
Proof. rewrite request_unfold; reflexivity. Qed.

Lemma lift_request server self method path body key sent :
  lift (_request server self method path body key) sent =
  (sent ++ [request_for self method path body key],
   match snd (_request server self method path body key sent) with
   | Done a => SDone a
   | Fail e => SFail (Exc e)
   end).
Proof.
  unfold lift; rewrite (surjective_pairing (_request _ _ _ _ _ _ sent)), request_sent.
  destruct (snd _); reflexivity.
Qed.

Lemma py_or_truthy a b : truthy b = true -> truthy (py_or a b) = true.
Proof. unfold py_or; destruct (truthy a) eqn:E; auto. Qed.

Lemma lookup_dict_set k k' (v : json) d :
  lookup k (dict_set k' v d) = if String.eqb k k' then Some v else lookup k d.
Proof.
  induction d as [|[k0 v0] d IH]; cbn [dict_set lookup].
  - destruct (String.eqb k k'); reflexivity.
  - destruct (String.eqb_spec k' k0) as [<-|Hne]; cbn [lookup].
    + destruct (String.eqb k k'); reflexivity.
    + rewrite IH. destruct (String.eqb_spec k k0) as [->|]; [|reflexivity].
      destruct (String.eqb_spec k0 k') as [->|]; [contradiction|reflexivity].
Qed.

Lemma lookup_app k (l1 l2 : dict) :
  lookup k (l1 ++ l2) = match lookup k l1 with Some v => Some v | None => lookup k l2 end.
Proof.
  induction l1 as [|[k0 v0] l1 IH]; [reflexivity|]; cbn [app lookup].
  destruct (String.eqb k k0); [reflexivity|exact IH].
Qed.

Lemma lookup_merge k base extra :
  lookup k (dict_merge base extra) =
  match lookup k (rev extra) with Some v => Some v | None => lookup k base end.
Proof.
  unfold dict_merge; revert base.
  induction extra as [|[k0 v0] extra IH]; intro base; [reflexivity|].
  cbn [fold_left rev fst snd]; rewrite IH, lookup_app, lookup_dict_set.
  cbn [lookup]; destruct (lookup k (rev extra)); [reflexivity|].
  destruct (String.eqb k k0); reflexivity.
Qed.

Lemma in_str_nil t : in_str "" t = true.
Proof. destruct t; reflexivity. Qed.

Lemma prefix_nil s : String.prefix "" s = true.
Proof. destruct s; reflexivity. Qed.

Lemma prefix_app s a b : String.prefix s a = true -> String.prefix s (a ++ b) = true.
Proof.
  revert s; induction a as [|c a IH]; intros [|d s] H; try apply prefix_nil.
  - simpl in H; discriminate.
  - cbn [String.prefix append] in *.
    destruct (Ascii.ascii_dec d c); [apply IH; exact H|discriminate].
Qed.

Lemma in_str_app_r sub s t : in_str sub t = true -> in_str sub (s ++ t) = true.
Proof.
  induction s as [|c s IH]; intro H; [exact H|].
  cbn [append in_str]; rewrite IH by exact H; apply orb_true_r.
Qed.

Lemma in_str_app_l sub s t : in_str sub s = true -> in_str sub (s ++ t) = true.
Proof.
  induction s as [|c s IH]; intro H.
  - cbn [in_str] in H; apply String.eqb_eq in H as ->; apply in_str_nil.
  - cbn [append in_str] in *; apply orb_true_iff in H as [H|H].
    + change (String c (s ++ t)) with (String c s ++ t)%string.
      rewrite prefix_app by exact H; reflexivity.
    + rewrite IH by exact H; apply orb_true_r.
Qed.

Lemma prefix_noslash s a b :
  contains "/" s = false -> String.prefix s (a ++ String "/" b) = String.prefix s a.
Proof.
  revert s; induction a as [|c a IH]; intros [|d s] H; try (rewrite !prefix_nil; reflexivity).
  - cbn [contains] in H; apply orb_false_iff in H as [Hd _].
    cbn [String.prefix append].
    destruct (Ascii.ascii_dec d "/") as [->|]; [discriminate|reflexivity].
  - cbn [contains] in H; apply orb_false_iff in H as [_ Hs].
    cbn [String.prefix append].
    destruct (Ascii.ascii_dec d c); [apply IH; exact Hs|reflexivity].
Qed.

Lemma in_str_noslash a t :
  contains "/" a = false -> in_str "/generate" (a ++ t) = in_str "/generate" t.
Proof.
  induction a as [|c a IH]; intro H; [reflexivity|].
  cbn [contains] in H; apply orb_false_iff in H as [Hc Ha].
  cbn [append in_str]; rewrite IH by exact Ha.
  cbn [String.prefix].
  destruct (Ascii.ascii_dec "/" c) as [<-|]; [discriminate|reflexivity].
Qed.

Lemma in_str_jobs x :
  in_str "/generate" ("/v1/jobs/" ++ x) = String.prefix "generate" x || in_str "/generate" x.
Proof. reflexivity. Qed.

Lemma lookup_opt_set k k' (w : option string) p :
  k <> k' ->
  lookup k (match w with
            | Some u => if negb (String.eqb u "") then dict_set k' (JStr u) p else p
            | None => p
            end) = lookup k p.
Proof.
  intro Hk; destruct w as [u|]; [destruct (negb (String.eqb u ""))|]; try reflexivity.
  rewrite lookup_dict_set; destruct (String.eqb_spec k k'); [contradiction|reflexivity].
Qed.

End ClientFacts.



(** * Properties of vloex/client.py and vloex/exceptions.py *)
Module ClientProps.
Import Py Client Text Videos Scripts ExtraDefs ClientFacts SpecDefs.

(** Extra: [create] sends exactly one POST to /v1/generate whose body holds
    [input] and [options], then [webhook_url] and [webhook_secret] only when
    they are non-empty, and whose headers carry the idempotency key only when
    it is non-empty. When the answer's body is a JSON object (or not JSON,
    read as [{}]), it returns the fields id, status, url and error of an
    accepted answer and raises a VloexError carrying the HTTP status and a
    non-empty message for a refused one; any other JSON body makes
    [data.get] raise AttributeError. *)
Theorem create_request server self script webhook_url webhook_secret idempotency_key
    options sent :
  let field k (v : option string) :=
    match v with
    | Some u => if negb (String.eqb u "") then [(k, JStr u)] else []
    | None => []
    end in
  let req := request_for self "POST" "/v1/generate"
               (Some ([("input", JStr script); ("options", JObj options)]
                      ++ field "webhook_url" webhook_url
                      ++ field "webhook_secret" webhook_secret))
               idempotency_key in
  let data := match resp_json (server req) with Some v => v | None => JObj [] end in
  fst (create server self script webhook_url webhook_secret idempotency_key options sent) =
    sent ++ [req] /\
  req_headers req =
    [("Authorization", ("Bearer " ++ api_key self)%string);
     ("Content-Type", "application/json")] ++
    match idempotency_key with
    | Some k => if negb (String.eqb k "") then [("Idempotency-Key", k)] else []
    | None => []
    end /\
  match snd (create server self script webhook_url webhook_secret idempotency_key options sent) with
  | Done v =>
      resp_ok (server req) = true /\ (exists d, data = JObj d) /\
      exists fields, v = JObj fields /\ map fst fields = ["id"; "status"; "url"; "error"]
  | Fail e =>
      (resp_ok (server req) = false /\ (exists d, data = JObj d) /\
       exists message, truthy message = true /\ e = VloexError message (resp_status (server req))) \/
      ((forall d, data <> JObj d) /\ e = PyExc AttributeError)
  end.
Proof.
  intros field req data.
  assert (E : create server self script webhook_url webhook_secret idempotency_key options =
              _request server self "POST" "/v1/generate"
                (Some ([("input", JStr script); ("options", JObj options)]
                       ++ field "webhook_url" webhook_url
                       ++ field "webhook_secret" webhook_secret))
                idempotency_key).
  { unfold create, field.
    destruct webhook_url as [u|], webhook_secret as [w|];
      try destruct (String.eqb u ""); try destruct (String.eqb w ""); reflexivity. }
  rewrite E; split; [apply request_sent|split].
  - unfold req, request_for.
    destruct idempotency_key as [k|]; [destruct (String.eqb k "")|]; reflexivity.
  - rewrite request_unfold; cbv zeta; fold req.
    replace (in_str "/generate" "/v1/generate") with true by reflexivity.
    unfold data; destruct (resp_json (server req)) as [[| | | | |d]|];
      destruct (resp_ok (server req)); cbn [negb with_dict snd];
      try (right; split; [intros d' Hd; discriminate|reflexivity]).
    all: first
      [ split; [reflexivity|split; [eauto|]]; eexists; split; reflexivity
      | left; split; [reflexivity|split; [eauto|]];
        eexists; split; [|reflexivity]; apply py_or_truthy, py_or_truthy; reflexivity ].
Qed.

(** Extra: for a job id without '/' that does not start with "generate",
    [retrieve] sends one GET to /v1/jobs/{id}/status without body or
    idempotency key, and reads the video's URL from [video_url] (falling
    back to [url]) and the error from [error_message] (falling back to
    [error]); a refused answer raises a VloexError with its status. *)
Theorem retrieve_status_fields server self id sent :
  contains "/" id = false -> String.prefix "generate" id = false ->
  let req := request_for self "GET" ("/v1/jobs/" ++ id ++ "/status") None None in
  let data := match resp_json (server req) with Some v => v | None => JObj [] end in
  retrieve server self id sent =
  (sent ++ [req],
   match data with
   | JObj d =>
       if resp_ok (server req) then
         Done (JObj [("id", dict_get "id" d); ("status", dict_get "status" d);
                     ("url", py_or (dict_get "video_url" d) (dict_get "url" d));
                     ("error", py_or (dict_get "error_message" d) (dict_get "error" d))])
       else
         Fail (VloexError (py_or (dict_get "detail" d)
                             (py_or (dict_get "message" d) (JStr "API request failed")))
                          (resp_status (server req)))
   | _ => Fail (PyExc AttributeError)
   end).
Proof.
  intros Hs Hg req data; unfold retrieve; rewrite request_unfold; cbv zeta; fold req data.
  rewrite in_str_jobs, (prefix_noslash "generate" id "status" eq_refl), Hg,
    in_str_noslash by exact Hs; cbn [orb].
  replace (in_str "/status" ("/v1/jobs/" ++ id ++ "/status"))%string with true
    by (symmetry; apply in_str_app_r, in_str_app_r; reflexivity).
  destruct (resp_ok (server req)), data; reflexivity.
Qed.

Lemma retrieve_status_fields_witness :
  retrieve status_server sample_client "job_1" [] =
  ([request_for sample_client "GET" "/v1/jobs/job_1/status" None None],
   Done (JObj [("id", JStr "generate_42"); ("status", JStr "completed");
               ("url", JStr "https://cdn/v.mp4"); ("error", JNull)])).
Proof.
  exact (retrieve_status_fields status_server sample_client "job_1" [] eq_refl eq_refl).
Defined.

(** Extra: for a job id that starts with "generate" or contains
    "/generate", [retrieve] takes its path for a /generate call: an
    accepted answer whose body is a JSON object is read with the fields of
    [create] ([job_id] or [id], [url], [error]), so a [video_url] or
    [error_message] of the status answer is dropped; an accepted answer
    with any other JSON body raises AttributeError. *)
Theorem retrieve_generate_id server self id sent :
  String.prefix "generate" id = true \/ in_str "/generate" id = true ->
  let req := request_for self "GET" ("/v1/jobs/" ++ id ++ "/status") None None in
  let data := match resp_json (server req) with Some v => v | None => JObj [] end in
  resp_ok (server req) = true ->
  retrieve server self id sent =
  (sent ++ [req],
   match data with
   | JObj d =>
       Done (JObj [("id", py_or (dict_get "job_id" d) (dict_get "id" d));
                   ("status", dict_get "status" d);
                   ("url", dict_get "url" d);
                   ("error", dict_get "error" d)])
   | _ => Fail (PyExc AttributeError)
   end).
Proof.
  intros Hg req data Hok; unfold retrieve; rewrite request_unfold; cbv zeta; fold req data.
  rewrite Hok, in_str_jobs; cbn [negb].
  replace (String.prefix "generate" (id ++ "/status") || in_str "/generate" (id ++ "/status"))
    with true; [destruct data; reflexivity|].
  symmetry; destruct Hg as [H|H].
  - rewrite prefix_app by exact H; reflexivity.
  - rewrite in_str_app_l by exact H; apply orb_true_r.
Qed.

Lemma retrieve_generate_id_witness :
  retrieve status_server sample_client "generate_42" [] =
  ([request_for sample_client "GET" "/v1/jobs/generate_42/status" None None],
   Done (JObj [("id", JStr "generate_42"); ("status", JStr "completed");
               ("url", JNull); ("error", JNull)])).
Proof.
  exact (retrieve_generate_id status_server sample_client "generate_42" []
           (or_introl eq_refl) eq_refl).
Defined.

(** Extra: with a non-empty product context, [from_journey] sends one POST
    to /v1/videos/from-journey whose body carries [screenshots] when they
    are non-empty, [descriptions] only when screenshots and descriptions
    are both non-empty, [product_url] when it is non-empty, and [pages]
    only when product_url and pages are both non-empty; otherwise the key
    holds what [**options] gave it, if anything. *)
Theorem from_journey_payload server self screenshots descriptions product_url pages
    product_context step_duration avatar_position tone webhook_url webhook_secret
    options sent :
  product_context <> "" ->
  let strs l := match l with Some xs => JList (map JStr xs) | None => JNull end in
  exists payload,
    fst (from_journey server self screenshots descriptions product_url pages
           (Some product_context) step_duration avatar_position tone webhook_url
           webhook_secret options sent) =
      sent ++ [request_for self "POST" "/v1/videos/from-journey" (Some payload) None] /\
    lookup "screenshots" payload =
      (if list_truthy screenshots then Some (strs screenshots)
       else lookup "screenshots" (rev options)) /\
    lookup "descriptions" payload =
      (if list_truthy screenshots && list_truthy descriptions then Some (strs descriptions)
       else lookup "descriptions" (rev options)) /\
    lookup "product_url" payload =
      (if str_truthy product_url then option_map JStr product_url
       else lookup "product_url" (rev options)) /\
    lookup "pages" payload =
      (if str_truthy product_url && list_truthy pages then Some (strs pages)
       else lookup "pages" (rev options)).
Proof.
  intros Hpc strs; unfold from_journey.
  destruct (String.eqb_spec product_context "") as [|_]; [contradiction|].
  eexists; split; [apply request_sent|].
  cbv beta zeta; subst strs.
  rewrite !lookup_opt_set by discriminate.
  destruct product_url as [u|]; cbn [str_truthy option_map];
    [destruct (String.eqb u "")|]; cbn [negb andb];
    destruct pages as [[|pg pgs]|], screenshots as [[|sc scs]|], descriptions as [[|d ds]|];
    cbn [list_truthy andb];
    rewrite ?lookup_dict_set, ?lookup_merge; cbn [String.eqb Ascii.eqb Bool.eqb lookup];
    repeat split;
    match goal with
    | |- context [lookup ?k (rev options)] => destruct (lookup k (rev options)); reflexivity
    | _ => reflexivity
    end.
Qed.

Lemma from_journey_payload_witness :
  exists payload,
    fst (from_journey sample_server sample_client None (Some ["Login page"]) None (Some ["/"])
           (Some "Demo") 15 "bottom-right" "professional" None None [] []) =
      [request_for sample_client "POST" "/v1/videos/from-journey" (Some payload) None] /\
    lookup "descriptions" payload = None /\ lookup "pages" payload = None.
Proof.
  destruct (from_journey_payload sample_server sample_client None (Some ["Login page"]) None
              (Some ["/"]) "Demo" 15 "bottom-right" "professional" None None [] []
              ltac:(discriminate)) as (payload & H1 & _ & H2 & _ & H3).
  exists payload; split; [exact H1|split; [exact H2|exact H3]].
Defined.

End ClientProps.


(** * Facts about the example scripts' runs *)
Module FlowFacts.
Import Py Client Text Videos Scripts ExtraDefs ClientFacts.

Lemma getitem_fail v k e : getitem v k = SFail e -> not_vloex e.
Proof.
  unfold getitem; destruct v; try (intro H; injection H as <-; exact I).
  destruct (lookup k d); intro H; [discriminate|injection H as <-; exact I].
Qed.

Lemma getitem_obj d k v : getitem (JObj d) k = SDone v -> lookup k d = Some v.
Proof. unfold getitem; destruct (lookup k d); congruence. Qed.

Lemma Vloex_init_ok k b v :
  Vloex_init k b = Ok v ->
  exists key, k = Some key /\ key <> "" /\ v = {| api_key := key; base_url := b |}.
Proof.
  unfold Vloex_init; destruct k as [key|]; [|discriminate].
  destruct (String.eqb_spec key "") as [|Hk]; [discriminate|]; cbn [negb].
  intro H; injection H as <-; eauto.
Qed.

Lemma request_fail srv self method path body key sent e :
  snd (_request srv self method path body key sent) = Fail e ->
  e = PyExc AttributeError \/
  resp_ok (srv (request_for self method path body key)) = false /\
  exists msg, e = VloexError msg (resp_status (srv (request_for self method path body key))).
Proof.
  rewrite request_unfold; cbv zeta; cbn [snd].
  destruct (resp_json (srv (request_for self method path body key))) as [[| | | | |d]|];
    destruct (resp_ok (srv (request_for self method path body key))); cbn [negb with_dict];
    repeat match goal with |- context [if ?b then _ else _] => destruct b end;
    cbn [with_dict]; intro H; try discriminate; injection H as <-; eauto.
Qed.

(** The status answer of an accepted request to /v1/jobs/{x}/status whose
    body is a JSON object: its [status] is the body's. *)
Lemma status_answer srv vloex x sent d :
  let req := request_for vloex "GET" ("/v1/jobs/" ++ x ++ "/status") None None in
  resp_ok (srv req) = true -> resp_json (srv req) = Some (JObj d) ->
  exists st,
    snd (_request srv vloex "GET" ("/v1/jobs/" ++ x ++ "/status") None None sent) = Done st /\
    getitem st "status" = SDone (dict_get "status" d).
Proof.
  intros req Hok Hj; rewrite request_unfold; cbv zeta; fold req; rewrite Hok, Hj.
  cbn [negb with_dict snd].
  destruct (in_str "/generate" _); [eexists; split; reflexivity|].
  rewrite in_str_app_r by (apply in_str_app_r; reflexivity).
  eexists; split; reflexivity.
Qed.

Lemma create_plain srv self script :
  create srv self script None None None [] =
  _request srv self "POST" "/v1/generate" (Some [("input", JStr script); ("options", JObj [])]) None.
Proof. reflexivity. Qed.

Lemma retrieve_request srv self id :
  retrieve srv self id =
  _request srv self "GET" ("/v1/jobs/" ++ id ++ "/status") None None.
Proof. reflexivity. Qed.

End FlowFacts.

Module PollFacts.
Import Py Client Text Videos Scripts ExtraDefs ClientFacts FlowFacts ReleaseVideo.

Section Poll.
Variable server : list http_request -> http_request -> http_response.
Variable repr : json -> string.


(** One polling step: the job id is read, its status requested. *)
Lemma poll_step n vloex video status sent :
  poll server repr (S n) vloex video status sent =
  match getitem video "id" with
  | SFail e => (sent, SFail e)
  | SDone id =>
      let req := status_req repr vloex id in
      let sent' := sent ++ [req] in
      match snd (_request (server sent) vloex "GET" ("/v1/jobs/" ++ py_str repr id ++ "/status")
                   None None sent) with
      | Fail e => (sent', SFail (Exc e))
      | Done st =>
          match getitem st "status" with
          | SFail e => (sent', SFail e)
          | SDone s =>
              if is_str s "completed" then (sent', SDone st)
              else if is_str s "failed" then (sent', SDone st)
              else poll server repr n vloex video (Some st) sent'
          end
      end
  end.
Proof.
  cbn [poll]; unfold sbind at 1, of_sres.
  destruct (getitem video "id") as [id|e]; [|reflexivity].
  unfold sbind at 1, api; rewrite retrieve_request, lift_request.
  destruct (snd _) as [st|e]; [|reflexivity].
  unfold sbind, of_sres; destruct (getitem st "status") as [s|e]; [|reflexivity].
  destruct (is_str s "completed"); [reflexivity|].
  destruct (is_str s "failed"); reflexivity.
Qed.

Lemma poll_requests n : forall vloex video status sent,
  exists gets,
    fst (poll server repr n vloex video status sent) = sent ++ gets /\
    (List.length gets <= n)%nat /\
    Forall (fun r => exists id, getitem video "id" = SDone id /\ r = status_req repr vloex id) gets.
Proof.
  induction n as [|n IH]; intros vloex video status sent.
  - exists []; rewrite app_nil_r; split; [|split; [reflexivity|constructor]].
    destruct status; reflexivity.
  - rewrite poll_step.
    destruct (getitem video "id") as [id|e] eqn:Eid;
      [|exists []; rewrite app_nil_r; split; [reflexivity|split; [cbn; lia|constructor]]].
    cbv zeta.
    assert (Hone : Forall (fun r => exists id0, SDone id = SDone id0 /\
                                                r = status_req repr vloex id0) [status_req repr vloex id])
      by (constructor; [eauto|constructor]).
    destruct (snd _) as [st|e];
      [|exists [status_req repr vloex id]; split; [reflexivity|split; [cbn; lia|exact Hone]]].
    destruct (getitem st "status") as [s|e];
      [|exists [status_req repr vloex id]; split; [reflexivity|split; [cbn; lia|exact Hone]]].
    destruct (is_str s "completed");
      [exists [status_req repr vloex id]; split; [reflexivity|split; [cbn; lia|exact Hone]]|].
    destruct (is_str s "failed");
      [exists [status_req repr vloex id]; split; [reflexivity|split; [cbn; lia|exact Hone]]|].
    destruct (IH vloex video (Some st) (sent ++ [status_req repr vloex id])) as (gets & E & Hl & Hf).
    rewrite Eid in Hf.
    exists (status_req repr vloex id :: gets); split; [rewrite E, <- app_assoc; reflexivity|].
    split; [cbn; lia|constructor; [eauto|exact Hf]].
Qed.

(** A job that never finishes: every status request is accepted with a
    JSON object whose status is neither "completed" nor "failed". *)
Definition never_finishes : Prop :=
  forall pre req, req_method req = "GET" ->
    resp_ok (server pre req) = true /\
    exists d, resp_json (server pre req) = Some (JObj d) /\
      is_str (dict_get "status" d) "completed" = false /\
      is_str (dict_get "status" d) "failed" = false.

(** Polling a job that never finishes runs [n] rounds and returns the
    answer to the last status request. *)
Lemma poll_never n : never_finishes -> forall vloex video status sent id,
  getitem video "id" = SDone id ->
  exists gets st pre last d,
    poll server repr (S n) vloex video status sent = (sent ++ gets, SDone st) /\
    List.length gets = S n /\ Forall (fun r => req_method r = "GET") gets /\
    sent ++ gets = pre ++ [last] /\ resp_json (server pre last) = Some (JObj d) /\
    getitem st "status" = SDone (dict_get "status" d).
Proof.
  intro Hnf; induction n as [|n IH]; intros vloex video status sent id Hid;
    rewrite poll_step, Hid; cbv zeta;
    destruct (Hnf sent (status_req repr vloex id) eq_refl) as (Hok & d & Hj & Hc & Hf);
    destruct (status_answer (server sent) vloex (py_str repr id) sent d Hok Hj) as (st & Er & Es);
    rewrite Er; cbv beta iota; rewrite Es, Hc, Hf.
  - exists [status_req repr vloex id], st, sent, (status_req repr vloex id), d.
    split; [reflexivity|split; [reflexivity|split; [constructor; [reflexivity|constructor]|]]].
    split; [reflexivity|split; [exact Hj|exact Es]].
  - destruct (IH vloex video (Some st) (sent ++ [status_req repr vloex id]) id Hid)
      as (gets & st' & pre & last & d' & E & Hl & Hg & Hs & Hj' & Hs').
    rewrite <- app_assoc in E, Hs.
    exists (status_req repr vloex id :: gets), st', pre, last, d'.
    split; [exact E|split; [cbn; rewrite Hl; reflexivity|]].
    split; [constructor; [reflexivity|exact Hg]|split; [exact Hs|split; [exact Hj'|exact Hs']]].
Qed.

Lemma poll_error n : forall vloex video status sent sent' m code,
  poll server repr n vloex video status sent = (sent', SFail (Exc (VloexError m code))) ->
  exists pre r, sent' = pre ++ [r] /\ resp_ok (server pre r) = false /\
                resp_status (server pre r) = code.
Proof.
  induction n as [|n IH]; intros vloex video status sent sent' m code H.
  - destruct status; discriminate.
  - rewrite poll_step in H.
    destruct (getitem video "id") as [id|e] eqn:Eid;
      [|injection H as _ ->; apply getitem_fail in Eid; destruct Eid].
    cbv zeta in H.
    destruct (snd _) as [st1|e] eqn:Er.
    + destruct (getitem st1 "status") as [s1|e] eqn:Eg;
        [|injection H as _ ->; apply getitem_fail in Eg; destruct Eg].
      destruct (is_str s1 "completed"); [discriminate|].
      destruct (is_str s1 "failed"); [discriminate|].
      exact (IH _ _ _ _ _ _ _ H).
    + injection H as <- ->.
      apply request_fail in Er as [|[Hok [msg Hm]]]; [discriminate|]; injection Hm as _ ->.
      exists sent, (status_req repr vloex id); split; [reflexivity|split; [exact Hok|reflexivity]].
Qed.

End Poll.

End PollFacts.


Module ReleaseFlowFacts.
Import Py Client Text Videos Scripts ExtraDefs ClientFacts FlowFacts PollFacts ReleaseVideo.



Lemma slice_to_fail v n e : slice_to v n = SFail e -> not_vloex e.
Proof. unfold slice_to; destruct v; intro H; try discriminate; injection H as <-; exact I. Qed.

Lemma as_str_ok v s : as_str v = SDone s -> v = JStr s.
Proof. unfold as_str; destruct v; intro H; try discriminate; injection H as ->; reflexivity. Qed.

Lemma as_str_fail v e : as_str v = SFail e -> not_vloex e.
Proof. unfold as_str; destruct v; intro H; try discriminate; injection H as <-; exact I. Qed.

Lemma fetch_ok github owner name release :
  fetch_latest_release github owner name = SDone release ->
  gh_status (github (release_url owner name)) = 200 /\
  gh_json (github (release_url owner name)) = Some release.
Proof.
  unfold fetch_latest_release.
  destruct (Z.eqb_spec (gh_status (github (release_url owner name))) 200) as [E|]; [|discriminate].
  cbn [negb]; destruct (gh_json _); intro H; [injection H as ->; auto|discriminate].
Qed.

Lemma fetch_fail github owner name e :
  fetch_latest_release github owner name = SFail e -> not_vloex e.
Proof.
  unfold fetch_latest_release; destruct (negb _); intro H; [injection H as <-; exact I|].
  destruct (gh_json _); [discriminate|injection H as <-; exact I].
Qed.

Section Run.
Variable github : string -> github_response.
Variable server : list http_request -> http_request -> http_response.
Variable repr : json -> string.

(** How a run of [generate_release_video] goes: it stops before any VLOEX
    request, or sends the POST of the script and then polls. *)
Lemma generate_release_video_cases api_key repo_owner repo_name sent :
  (exists e, generate_release_video github server repr api_key repo_owner repo_name sent =
             (sent, SFail e) /\ not_vloex e) \/
  (exists key release version body,
     api_key = Some key /\ key <> "" /\
     gh_status (github (release_url repo_owner repo_name)) = 200 /\
     gh_json (github (release_url repo_owner repo_name)) = Some release /\
     getitem release "tag_name" = SDone version /\
     getitem release "body" = SDone (JStr body) /\
     let vloex := {| api_key := key; base_url := DEFAULT_BASE_URL |} in
     let post := request_for vloex "POST" "/v1/generate"
                   (Some [("input", JStr (create_release_script (py_str repr version)
                                            (extract_release_highlights body 5) repo_name));
                          ("options", JObj [])]) None in
     (exists e, generate_release_video github server repr api_key repo_owner repo_name sent =
                (sent ++ [post], SFail e) /\
                (not_vloex e \/ resp_ok (server sent post) = false /\
                 exists m, e = Exc (VloexError m (resp_status (server sent post))))) \/
     (exists video id, getitem video "id" = SDone id /\
        generate_release_video github server repr api_key repo_owner repo_name sent =
        poll server repr max_attempts vloex video None (sent ++ [post]))).
Proof.
  unfold generate_release_video.
  destruct (Vloex_init api_key DEFAULT_BASE_URL) as [vloex|e] eqn:Ei;
    [|left; exists (Exc (PyExc e)); split; [reflexivity|exact I]].
  destruct (Vloex_init_ok _ _ _ Ei) as (key & Hk & Hne & ->).
  cbn [sbind of_sres api].
  destruct (fetch_latest_release github repo_owner repo_name) as [release|e] eqn:Ef;
    [|left; exists e; split; [reflexivity|eapply fetch_fail; eauto]].
  destruct (fetch_ok _ _ _ _ Ef) as [H200 Hjson].
  destruct (getitem release "tag_name") as [version|e] eqn:Ev;
    [|left; exists e; split; [reflexivity|eapply getitem_fail; eauto]].
  destruct (getitem release "published_at") as [pub|e] eqn:Ep;
    [|left; exists e; split; [reflexivity|eapply getitem_fail; eauto]].
  destruct (slice_to pub 10) as [pub10|e] eqn:Es;
    [|left; exists e; split; [reflexivity|eapply slice_to_fail; eauto]].
  destruct (getitem release "body") as [bodyj|e] eqn:Eb;
    [|left; exists e; split; [reflexivity|eapply getitem_fail; eauto]].
  destruct (as_str bodyj) as [body|e] eqn:Ea;
    [|left; exists e; split; [reflexivity|eapply as_str_fail; eauto]].
  apply as_str_ok in Ea; subst bodyj.
  right; exists key, release, version, body.
  do 6 (split; [assumption|]).
  cbv zeta; unfold sbind, of_sres, api; cbn beta iota.
  rewrite !create_plain, !lift_request.
  destruct (snd (_request (server sent) _ _ _ _ _ sent)) as [video|e] eqn:Er;
    cbn beta iota.
  - destruct (getitem video "id") as [id|e] eqn:Eid;
      [|left; exists e; split; [reflexivity|left; eapply getitem_fail; eauto]].
    destruct (getitem video "status") as [st|e] eqn:Est;
      [|left; exists e; split; [reflexivity|left; eapply getitem_fail; eauto]].
    right; exists video, id; split; [exact Eid|reflexivity].
  - left; exists (Exc e); split; [reflexivity|].
    apply request_fail in Er as [->|[Hok [m ->]]]; [left; exact I|right; split; [exact Hok|eauto]].
Qed.

End Run.

End ReleaseFlowFacts.



(** * Properties of examples/github-release-video.py: the run *)
Module ReleaseFlowProps.
Import Py Client Text Videos Scripts ExtraDefs ClientFacts FlowFacts PollFacts ReleaseVideo
  ReleaseFlowFacts.

(** Extra: [generate_release_video] sends no VLOEX request unless the API
    key is non-empty and GitHub answered 200 with a release that has a
    [tag_name] and a string [body]; it then sends one POST to /v1/generate
    whose input is the script built from that version and the first five
    highlights of that body, followed by at most [max_attempts] (60)
    status requests, all for one job id. *)
Theorem generate_release_video_requests github server repr api_key repo_owner repo_name sent :
  exists new,
    fst (generate_release_video github server repr api_key repo_owner repo_name sent) =
      sent ++ new /\
    (new = [] \/
     exists key release version body gets id,
       let vloex := {| api_key := key; base_url := DEFAULT_BASE_URL |} in
       api_key = Some key /\ key <> "" /\
       gh_status (github (release_url repo_owner repo_name)) = 200 /\
       gh_json (github (release_url repo_owner repo_name)) = Some release /\
       getitem release "tag_name" = SDone version /\
       getitem release "body" = SDone (JStr body) /\
       new = request_for vloex "POST" "/v1/generate"
               (Some [("input", JStr (create_release_script (py_str repr version)
                                        (extract_release_highlights body 5) repo_name));
                      ("options", JObj [])]) None :: gets /\
       (List.length gets <= max_attempts)%nat /\
       Forall (fun r => r = request_for vloex "GET" ("/v1/jobs/" ++ py_str repr id ++ "/status")
                              None None) gets).
Proof.
  destruct (generate_release_video_cases github server repr api_key repo_owner repo_name sent)
    as [(e & E & _)|(key & release & version & body & Hk & Hne & H200 & Hj & Hv & Hb & Hrun)].
  - exists []; rewrite E, app_nil_r; split; [reflexivity|left; reflexivity].
  - cbv zeta in Hrun; destruct Hrun as [(e & E & _)|(video & id & Hid & E)].
    + eexists; rewrite E; split; [reflexivity|right].
      exists key, release, version, body, [], JNull; cbv zeta.
      do 6 (split; [assumption|]); split; [reflexivity|split; [cbn; lia|constructor]].
    + destruct (poll_requests server repr max_attempts
                  {| api_key := key; base_url := DEFAULT_BASE_URL |} video None
                  (sent ++ [request_for {| api_key := key; base_url := DEFAULT_BASE_URL |}
                              "POST" "/v1/generate"
                              (Some [("input", JStr (create_release_script (py_str repr version)
                                        (extract_release_highlights body 5) repo_name));
                                     ("options", JObj [])]) None]))
        as (gets & Eg & Hl & Hf).
      eexists; rewrite E, Eg, <- app_assoc; split; [reflexivity|right].
      exists key, release, version, body, gets, id; cbv zeta.
      do 6 (split; [assumption|]); split; [reflexivity|split; [exact Hl|]].
      eapply Forall_impl; [|exact Hf]; intros r (id0 & Hid0 & ->).
      rewrite Hid in Hid0; injection Hid0 as <-; reflexivity.
Qed.

(** Extra: when the job never finishes (every status request is accepted
    with a JSON object whose status is neither "completed" nor "failed"),
    [generate_release_video] either stops by the POST to /v1/generate, or
    sends exactly one POST and [max_attempts] (60) status requests and
    returns the job read from the answer to the last of them. *)
Theorem generate_release_video_timeout github server repr api_key repo_owner repo_name sent :
  never_finishes server ->
  match generate_release_video github server repr api_key repo_owner repo_name sent with
  | (sent', SDone st) =>
      exists post gets, sent' = sent ++ post :: gets /\ req_method post = "POST" /\
        List.length gets = max_attempts /\ Forall (fun r => req_method r = "GET") gets /\
        exists pre last d, sent' = pre ++ [last] /\
          resp_json (server pre last) = Some (JObj d) /\
          getitem st "status" = SDone (dict_get "status" d)
  | (sent', SFail _) =>
      sent' = sent \/ exists post, sent' = sent ++ [post] /\ req_method post = "POST"
  end.
Proof.
  intro Hnf.
  destruct (generate_release_video_cases github server repr api_key repo_owner repo_name sent)
    as [(e & E & _)|(key & release & version & body & _ & _ & _ & _ & _ & _ & Hrun)];
    [rewrite E; left; reflexivity|].
  cbv zeta in Hrun; destruct Hrun as [(e & E & _)|(video & id & Hid & E)]; rewrite E;
    [right; eexists; split; reflexivity|].
  unfold max_attempts.
  match goal with
  | |- context [poll server repr _ ?v video None ?s] =>
      destruct (poll_never server repr 59 Hnf v video None s id Hid)
        as (gets & st & pre & last & d & Ep & Hl & Hg & Hs & Hj & Hst)
  end.
  rewrite Ep; exists (request_for {| api_key := key; base_url := DEFAULT_BASE_URL |}
                        "POST" "/v1/generate"
                        (Some [("input", JStr (create_release_script (py_str repr version)
                                                 (extract_release_highlights body 5) repo_name));
                               ("options", JObj [])]) None), gets.
  rewrite <- app_assoc; split; [reflexivity|split; [reflexivity|split; [exact Hl|split; [exact Hg|]]]].
  exists pre, last, d; rewrite app_assoc; auto.
Qed.

Lemma generate_release_video_timeout_witness :
  (exists st, snd (generate_release_video github_ok busy_server no_repr (Some "k") "acme" "app" [])
              = SDone st) /\
  match generate_release_video github_ok busy_server no_repr (Some "k") "acme" "app" [] with
  | (sent', SDone st) =>
      exists post gets, sent' = [] ++ post :: gets /\ req_method post = "POST" /\
        List.length gets = max_attempts /\ Forall (fun r => req_method r = "GET") gets /\
        exists pre last d, sent' = pre ++ [last] /\
          resp_json (busy_server pre last) = Some (JObj d) /\
          getitem st "status" = SDone (dict_get "status" d)
  | (sent', SFail _) =>
      sent' = [] \/ exists post, sent' = [] ++ [post] /\ req_method post = "POST"
  end.
Proof.
  split; [eexists; vm_compute; reflexivity|].
  apply (generate_release_video_timeout github_ok busy_server no_repr (Some "k") "acme" "app" []).
  intros pre req _; split; [reflexivity|]; eexists; split; [reflexivity|split; reflexivity].
Defined.

(** Extra: a VloexError leaving [generate_release_video] (its [except]
    clause re-raises) comes from the last request sent: the server refused
    it, and the error carries that answer's status code. *)
Theorem generate_release_video_vloex_error github server repr api_key repo_owner repo_name
    sent sent' m code :
  generate_release_video github server repr api_key repo_owner repo_name sent =
    (sent', SFail (Exc (VloexError m code))) ->
  exists pre r, sent' = pre ++ [r] /\ resp_ok (server pre r) = false /\
                resp_status (server pre r) = code.
Proof.
  intro H.
  destruct (generate_release_video_cases github server repr api_key repo_owner repo_name sent)
    as [(e & E & Hn)|(key & release & version & body & _ & _ & _ & _ & _ & _ & Hrun)].
  - rewrite E in H; injection H as _ ->; destruct Hn.
  - cbv zeta in Hrun; destruct Hrun as [(e & E & Hn)|(video & id & Hid & E)];
      rewrite E in H.
    + injection H as <- ->.
      destruct Hn as [[]|(Hok & m' & Hm)]; injection Hm as _ ->; eauto.
    + exact (poll_error _ _ _ _ _ _ _ _ _ _ H).
Qed.

Lemma generate_release_video_vloex_error_witness :
  exists pre r,
    fst (generate_release_video github_ok refusing_server no_repr (Some "k") "acme" "app" []) =
      pre ++ [r] /\
    resp_ok (refusing_server pre r) = false /\ resp_status (refusing_server pre r) = 402.
Proof.
  apply (generate_release_video_vloex_error github_ok refusing_server no_repr (Some "k") "acme" "app"
           [] (fst (generate_release_video github_ok refusing_server no_repr (Some "k") "acme" "app" []))
           (JStr "Insufficient credits")).
  vm_compute; reflexivity.
Defined.

End ReleaseFlowProps.



(** * Facts for the other example scripts and the webhook receiver *)
Module ScriptFacts.
Import Py Client Text Videos Scripts ExtraDefs ClientFacts FlowFacts.

Lemma create_as_request srv self script webhook_url webhook_secret idempotency_key options :
  exists body, create srv self script webhook_url webhook_secret idempotency_key options =
               _request srv self "POST" "/v1/generate" (Some body) idempotency_key.
Proof. eexists; reflexivity. Qed.

Lemma request_done srv self method path body key sent v :
  snd (_request srv self method path body key sent) = Done v ->
  resp_ok (srv (request_for self method path body key)) = true.
Proof.
  rewrite request_unfold; cbv zeta; cbn [snd].
  destruct (resp_json (srv (request_for self method path body key))) as [[| | | | |d]|];
    destruct (resp_ok (srv (request_for self method path body key))); cbn [negb with_dict];
    repeat match goal with |- context [if ?b then _ else _] => destruct b end;
    cbn [with_dict]; intro H; try discriminate; reflexivity.
Qed.

(** How a failed request failed, by the answer's [ok] and body. *)
Lemma request_fail_cases srv self method path body key sent e :
  let response := srv (request_for self method path body key) in
  snd (_request srv self method path body key sent) = Fail e ->
  (resp_ok response = true -> e = PyExc AttributeError) /\
  (resp_ok response = false ->
   match resp_json response with
   | Some (JObj _) | None => exists m, e = VloexError m (resp_status response)
   | Some _ => e = PyExc AttributeError
   end).
Proof.
  intro response; rewrite request_unfold; cbv zeta; fold response; cbn [snd].
  destruct (resp_json response) as [[| | | | |d]|]; destruct (resp_ok response);
    cbn [negb with_dict];
    repeat match goal with |- context [if ?b then _ else _] => destruct b end;
    cbn [with_dict]; intro H; try discriminate; injection H as <-;
    split; intro Hk; try discriminate; eauto.
Qed.

(** A POST to /v1/videos/from-journey, as a script step: an accepted
    answer with a JSON object body is read as id, status, created_at and
    updated_at. *)
Lemma lift_from_journey_request srv self body sent :
  lift (_request srv self "POST" "/v1/videos/from-journey" (Some body) None) sent =
  (sent ++ [request_for self "POST" "/v1/videos/from-journey" (Some body) None],
   match match resp_json (srv (request_for self "POST" "/v1/videos/from-journey" (Some body) None))
         with Some v => v | None => JObj [] end with
   | JObj d =>
       if resp_ok (srv (request_for self "POST" "/v1/videos/from-journey" (Some body) None)) then
         SDone (JObj [("id", dict_get "id" d); ("status", dict_get "status" d);
                      ("created_at", dict_get "created_at" d);
                      ("updated_at", dict_get "updated_at" d)])
       else
         SFail (Exc (VloexError (py_or (dict_get "detail" d)
                                   (py_or (dict_get "message" d) (JStr "API request failed")))
                   (resp_status (srv (request_for self "POST" "/v1/videos/from-journey"
                                        (Some body) None)))))
   | _ => SFail (Exc (PyExc AttributeError))
   end).
Proof.
  unfold lift; rewrite request_unfold; cbv zeta.
  replace (in_str "/generate" "/v1/videos/from-journey") with false by reflexivity.
  replace (in_str "/status" "/v1/videos/from-journey") with false by reflexivity.
  replace (in_str "/from-journey" "/v1/videos/from-journey") with true by reflexivity.
  destruct (resp_json (srv (request_for self "POST" "/v1/videos/from-journey" (Some body) None)))
    as [[| | | | |d]|];
    destruct (resp_ok (srv (request_for self "POST" "/v1/videos/from-journey" (Some body) None)));
    reflexivity.
Qed.

End ScriptFacts.

Module VerifyFacts.
Import Py Sha256 Webhook SpecDefs WebhookFacts.

Lemma upto_eq_ascii s : is_ascii_str s = true -> is_ascii_str (upto_eq s) = true.
Proof.
  induction s as [|c s IH]; [reflexivity|].
  unfold is_ascii_str in *; cbn [upto_eq list_ascii_of_string forallb]; intro H.
  apply andb_true_iff in H as [Hc Hs].
  destruct (Ascii.eqb c "="); [reflexivity|].
  cbn [list_ascii_of_string forallb]; rewrite Hc; exact (IH Hs).
Qed.

Lemma after_first_eq_ascii s : is_ascii_str s = true -> is_ascii_str (after_first_eq s) = true.
Proof.
  induction s as [|c s IH]; [reflexivity|].
  unfold is_ascii_str in *; cbn [after_first_eq list_ascii_of_string forallb]; intro H.
  apply andb_true_iff in H as [_ Hs].
  destruct (Ascii.eqb c "="); [exact Hs|exact (IH Hs)].
Qed.

Lemma provided_ascii s : is_ascii_str s = true ->
  exists p, provided_signature s = Ok p /\ is_ascii_str p = true.
Proof.
  intro H; rewrite provided_signature_eq; eexists; split; [reflexivity|].
  destruct (contains "=" s); [apply upto_eq_ascii, after_first_eq_ascii|]; exact H.
Qed.

Lemma int_raise s e : int s = Raise e -> e = ValueError.
Proof. unfold int; destruct (long_from_string _); intro H; [discriminate|injection H as <-; reflexivity]. Qed.

(** What [verify_webhook_signature] can raise, and when. *)
Lemma verify_raise body sig ts secret now e :
  verify_webhook_signature body sig ts secret now = Raise e ->
  (e = ValueError /\ int ts = Raise ValueError) \/
  (e = OverflowError /\ exists n, int ts = Ok n /\ float_overflow_bound <= Z.abs n) \/
  (e = TypeError /\ is_ascii_str sig = false).
Proof.
  unfold verify_webhook_signature, bind.
  destruct (int ts) as [n|e'] eqn:Ei.
  2:{ intro H; injection H as <-; apply int_raise in Ei as ->; left; auto. }
  unfold float_of_int.
  destruct (Z.leb_spec float_overflow_bound (Z.abs n)) as [Hb|Hb].
  { intro H; injection H as <-; right; left; eauto. }
  destruct (negb _); [discriminate|].
  rewrite provided_signature_eq; cbn beta iota.
  set (pv := if contains "=" sig then upto_eq (after_first_eq sig) else sig).
  unfold compare_digest, compare_digest_trace, bind.
  rewrite (is_hex_ascii _ (expected_signature_hex secret ts body)); cbn [andb].
  destruct (is_ascii_str pv) eqn:Ha; [discriminate|].
  intro H; injection H as <-; right; right; split; [reflexivity|].
  destruct (is_ascii_str sig) eqn:Hs; [|reflexivity].
  destruct (provided_ascii sig Hs) as (q & Hq & Hqa).
  rewrite provided_signature_eq in Hq; injection Hq as Hq; fold pv in Hq; congruence.
Qed.

End VerifyFacts.



(** * Properties of the other example scripts *)
Module ScriptProps.
Import Py Client Text Videos Scripts ExtraDefs ClientFacts FlowFacts ScriptFacts ReleaseWebhook
  Journeys.

(** Extra: [generate_release_video_with_webhook] never returns normally. It
    stops before any VLOEX request, or sends one POST to /v1/generate. An
    accepted answer then raises AttributeError, at [video.id] since
    [create] returns a dict, or already at [data.get] when the body is JSON
    but not an object. A refused answer raises a VloexError with the
    answer's status code when its body is a JSON object or not JSON, and
    AttributeError otherwise. *)
Theorem generate_release_video_with_webhook_fails github server repr api_key repo_owner
    repo_name webhook_url webhook_secret sent :
  match generate_release_video_with_webhook github server repr api_key repo_owner repo_name
          webhook_url webhook_secret sent with
  | (_, SDone _) => False
  | (sent', SFail e) =>
      sent' = sent \/
      exists req, sent' = sent ++ [req] /\ req_method req = "POST" /\
        req_url req = (DEFAULT_BASE_URL ++ "/v1/generate")%string /\
        (resp_ok (server sent req) = true -> e = Exc (PyExc AttributeError)) /\
        (resp_ok (server sent req) = false ->
         match resp_json (server sent req) with
         | Some (JObj _) | None => exists m, e = Exc (VloexError m (resp_status (server sent req)))
         | Some _ => e = Exc (PyExc AttributeError)
         end)
  end.
Proof.
  unfold generate_release_video_with_webhook; cbv zeta; unfold sbind, of_sres; cbn beta iota.
  destruct (raise_for_status _); cbn beta iota; [|left; reflexivity].
  destruct (gh_json _) as [release|]; cbn beta iota; [|left; reflexivity].
  destruct (get release "tag_name" _) as [version|e]; cbn beta iota; [|left; reflexivity].
  destruct (get release "name" _) as [name|e]; cbn beta iota; [|left; reflexivity].
  destruct (get release "body" _) as [body|e]; cbn beta iota; [|left; reflexivity].
  destruct (slice_to body 500) as [excerpt|e]; cbn beta iota; [|left; reflexivity].
  destruct (Vloex_init api_key DEFAULT_BASE_URL) as [vloex|e] eqn:Ei; cbn beta iota;
    [|left; reflexivity].
  destruct (Vloex_init_ok _ _ _ Ei) as (key & _ & _ & ->).
  unfold ReleaseVideo.api.
  match goal with
  | |- context [create (server sent) ?vloex ?script webhook_url webhook_secret None []] =>
      destruct (create_as_request (server sent) vloex script webhook_url webhook_secret None [])
        as [payload E]; rewrite E, lift_request
  end.
  destruct (snd (_request (server sent) _ _ _ _ _ sent)) as [video|e] eqn:Er;
    unfold attr_id; cbn beta iota;
    right; exists (request_for {| api_key := key; base_url := DEFAULT_BASE_URL |}
                     "POST" "/v1/generate" (Some payload) None);
    (split; [reflexivity|split; [reflexivity|split; [reflexivity|]]]).
  - apply request_done in Er.
    split; [reflexivity|congruence].
  - apply request_fail_cases in Er as [Ht Hf].
    split; [intro Hk; rewrite (Ht Hk); reflexivity|].
    intro Hk; specialize (Hf Hk).
    destruct (resp_json _) as [[| | | | |d]|]; try (rewrite Hf; reflexivity);
      destruct Hf as [m ->]; eauto.
Qed.

(** The request [from_journey] sends for a script's call, rewritten to
    its explicit body. *)
Local Ltac journey_post body :=
  match goal with
  | |- context [from_journey ?srv ?v ?sc ?ds ?pu ?pg ?pc ?sd ?ap ?tn ?wu ?ws ?op] =>
      replace (from_journey srv v sc ds pu pg pc sd ap tn wu ws op)
        with (_request srv v "POST" "/v1/videos/from-journey" (Some body) None)
        by reflexivity
  end.

(** What is left of a script run once the POST has been answered. *)
Local Ltac journey_finish server :=
  unfold sbind, of_sres; cbv beta iota;
  match goal with
  | |- context [journey_req ?b] =>
      journey_post b; rewrite lift_from_journey_request;
      change (request_for {| api_key := example_api_key; base_url := DEFAULT_BASE_URL |}
                "POST" "/v1/videos/from-journey" (Some b) None) with (journey_req b);
      destruct (resp_json (server (journey_req b))) as [[| | | | |d]|];
      destruct (resp_ok (server (journey_req b)))
  end;
  cbn; (split; [reflexivity|]);
    first [ split; [reflexivity|split; [eauto|reflexivity]]
          | intros d' Hd; discriminate ].

(** Extra: journey_mode1_screenshots.py's [main] reads screenshot1.png and
    then screenshot2.png, and stops with an OSError naming the first file
    it cannot read, before any request. Otherwise it sends one POST to
    /v1/videos/from-journey carrying the two files base64-encoded, and
    never gets to print the video: an accepted answer with a JSON object
    body is read by [from_journey] as id, status, created_at and
    updated_at, so [result['video_url']] raises KeyError; a refused one
    raises a VloexError with the answer's status code; an answer whose
    body is JSON but not an object raises AttributeError. *)
Theorem mode1_screenshots_main_fails server read_bytes sent :
  match read_bytes "screenshot1.png", read_bytes "screenshot2.png" with
  | None, _ =>
      mode1_screenshots_main server read_bytes sent = (sent, SFail (OSError "screenshot1.png"))
  | Some _, None =>
      mode1_screenshots_main server read_bytes sent = (sent, SFail (OSError "screenshot2.png"))
  | Some data1, Some data2 =>
      let req := journey_req [("product_context", JStr "My Product Demo - Key Features");
                              ("step_duration", JInt 15);
                              ("avatar_position", JStr "bottom-right");
                              ("tone", JStr "professional");
                              ("screenshots", JList [JStr (b64encode data1);
                                                     JStr (b64encode data2)])] in
      let data := match resp_json (server req) with Some v => v | None => JObj [] end in
      fst (mode1_screenshots_main server read_bytes sent) = sent ++ [req] /\
      match snd (mode1_screenshots_main server read_bytes sent) with
      | SFail (KeyError k) =>
          resp_ok (server req) = true /\ (exists d, data = JObj d) /\ k = "video_url"
      | SFail (Exc (VloexError _ code)) =>
          resp_ok (server req) = false /\ (exists d, data = JObj d) /\
          code = resp_status (server req)
      | SFail (Exc (PyExc AttributeError)) => forall d, data <> JObj d
      | _ => False
      end
  end.
Proof.
  unfold mode1_screenshots_main, read_file.
  change (Vloex_init (Some example_api_key) DEFAULT_BASE_URL)
    with (@Ok Vloex {| api_key := example_api_key; base_url := DEFAULT_BASE_URL |}).
  cbv iota beta.
  destruct (read_bytes "screenshot1.png") as [data1|]; [|reflexivity].
  destruct (read_bytes "screenshot2.png") as [data2|]; [|reflexivity].
  journey_finish server.
Qed.

(** Extra: journey_mode1_with_descriptions.py's [main] reads
    path/to/login.png and then path/to/dashboard.png, and stops with an
    OSError naming the first file it cannot read, before any request.
    Otherwise it sends one POST to /v1/videos/from-journey carrying the two
    files base64-encoded and the two descriptions, and fails: an accepted
    answer with a JSON object body has no [success] key (KeyError), a
    refused one raises a VloexError with its status, an answer whose body
    is JSON but not an object raises AttributeError. *)
Theorem mode1_descriptions_main_fails server read_bytes sent :
  match read_bytes "path/to/login.png", read_bytes "path/to/dashboard.png" with
  | None, _ =>
      mode1_descriptions_main server read_bytes sent = (sent, SFail (OSError "path/to/login.png"))
  | Some _, None =>
      mode1_descriptions_main server read_bytes sent =
        (sent, SFail (OSError "path/to/dashboard.png"))
  | Some data1, Some data2 =>
      let req := journey_req
        [("product_context", JStr "MyApp Product Demo"); ("step_duration", JInt 10);
         ("avatar_position", JStr "bottom-right"); ("tone", JStr "professional");
         ("screenshots", JList [JStr (b64encode data1); JStr (b64encode data2)]);
         ("descriptions",
          JList [JStr "Welcome to the login page. Enter your credentials to access the dashboard.";
                 JStr "The main dashboard shows all your metrics and recent activity at a glance."])] in
      let data := match resp_json (server req) with Some v => v | None => JObj [] end in
      fst (mode1_descriptions_main server read_bytes sent) = sent ++ [req] /\
      match snd (mode1_descriptions_main server read_bytes sent) with
      | SFail (KeyError k) =>
          resp_ok (server req) = true /\ (exists d, data = JObj d) /\ k = "success"
      | SFail (Exc (VloexError _ code)) =>
          resp_ok (server req) = false /\ (exists d, data = JObj d) /\
          code = resp_status (server req)
      | SFail (Exc (PyExc AttributeError)) => forall d, data <> JObj d
      | _ => False
      end
  end.
Proof.
  unfold mode1_descriptions_main, read_file.
  change (Vloex_init (Some example_api_key) DEFAULT_BASE_URL)
    with (@Ok Vloex {| api_key := example_api_key; base_url := DEFAULT_BASE_URL |}).
  cbv iota beta.
  destruct (read_bytes "path/to/login.png") as [data1|]; [|reflexivity].
  destruct (read_bytes "path/to/dashboard.png") as [data2|]; [|reflexivity].
  journey_finish server.
Qed.

(** Extra: journey_mode2_public.py's [main] sends one POST to
    /v1/videos/from-journey carrying the product URL and the three pages,
    and fails in the same way: KeyError on [success] for an accepted answer
    with a JSON object body, VloexError with the status for a refused one,
    AttributeError for an answer whose body is JSON but not an object. *)
Theorem mode2_public_main_fails server sent :
  let req := journey_req
    [("product_context", JStr "VLOEX API Documentation"); ("step_duration", JInt 15);
     ("avatar_position", JStr "bottom-right"); ("tone", JStr "professional");
     ("product_url", JStr "https://api.vloex.com/docs");
     ("pages", JList [JStr "/"; JStr "#tag/videos/POST/v1/generate";
                      JStr "#tag/videos/GET/v1/jobs/{job_id}/status"])] in
  let data := match resp_json (server req) with Some v => v | None => JObj [] end in
  fst (mode2_public_main server sent) = sent ++ [req] /\
  match snd (mode2_public_main server sent) with
  | SFail (KeyError k) =>
      resp_ok (server req) = true /\ (exists d, data = JObj d) /\ k = "success"
  | SFail (Exc (VloexError _ code)) =>
      resp_ok (server req) = false /\ (exists d, data = JObj d) /\
      code = resp_status (server req)
  | SFail (Exc (PyExc AttributeError)) => forall d, data <> JObj d
  | _ => False
  end.
Proof.
  unfold mode2_public_main.
  change (Vloex_init (Some example_api_key) DEFAULT_BASE_URL)
    with (@Ok Vloex {| api_key := example_api_key; base_url := DEFAULT_BASE_URL |}).
  journey_finish server.
Qed.

End ScriptProps.



(** * Verified properties of the webhook receiver *)
Module WebhookProps.
Import Py Sha256 Webhook VerifyFacts.



(** Extra: every run of [handle_vloex_webhook] ends in one of three ways.
    It answers 200 [{"status": "received"}] after printing nothing, the two
    lines of a completed video, or the two lines of a failed one. It
    answers 401 [{"error": "Invalid signature"}] after printing only that
    line, which happens only when a secret is configured and the signature
    header is non-empty. Or it raises before printing anything: from
    [request.get_json()], UnsupportedMediaType (415) without a JSON
    Content-Type and BadRequest (400) for a body that is not JSON; then
    AttributeError for a JSON body that is not an object; or, with a secret
    and a non-empty signature header, one of the exceptions of
    [verify_webhook_signature]. *)
Theorem handle_vloex_webhook_outcomes WEBHOOK_SECRET now req :
  match handle_vloex_webhook WEBHOOK_SECRET now req with
  | (logs, Ok resp) =>
      (resp = {| status_code := 200; response_json := [("status", "received")] |} /\
       (logs = [] \/
        (exists job_id video_url, logs = [VideoCompleted job_id; VideoURL video_url]) \/
        (exists job_id error, logs = [VideoFailed job_id; VideoError error]))) \/
      (resp = {| status_code := 401; response_json := [("error", "Invalid signature")] |} /\
       logs = [InvalidSignature] /\
       truthy WEBHOOK_SECRET = true /\ truthy (header_get (sig_header req) "") = true)
  | (logs, Raise e) =>
      logs = [] /\
      ((e = UnsupportedMediaType /\ content_is_json req = false) \/
       (e = BadRequest /\ content_is_json req = true /\ body_json req = Malformed) \/
       (e = AttributeError /\ content_is_json req = true /\ body_json req = NotObject) \/
       ((e = ValueError \/ e = OverflowError \/ e = TypeError) /\
        truthy WEBHOOK_SECRET = true /\ truthy (header_get (sig_header req) "") = true))
  end.
Proof.
  assert (Hp : match process req with
               | (logs, Ok resp) =>
                   resp = {| status_code := 200; response_json := [("status", "received")] |} /\
                   (logs = [] \/
                    (exists job_id video_url, logs = [VideoCompleted job_id; VideoURL video_url]) \/
                    (exists job_id error, logs = [VideoFailed job_id; VideoError error]))
               | (logs, Raise e) =>
                   logs = [] /\
                   ((e = UnsupportedMediaType /\ content_is_json req = false) \/
                    (e = BadRequest /\ content_is_json req = true /\ body_json req = Malformed) \/
                    (e = AttributeError /\ content_is_json req = true /\ body_json req = NotObject))
               end).
  { unfold process, get_json.
    destruct (content_is_json req); cbn [negb]; [|split; [reflexivity|left; auto]].
    destruct (body_json req) as [| |payload]; cbn iota.
    - split; [reflexivity|right; left; auto].
    - split; [reflexivity|right; right; auto].
    - split; [reflexivity|].
      destruct (dict_get "event" payload) as [ev|]; [|left; reflexivity].
      destruct (String.eqb ev "video.completed"); [right; left; eauto|].
      destruct (String.eqb ev "video.failed"); [right; right; eauto|].
      left; reflexivity. }
  assert (Hq : forall b c : bool, match process req with
               | (logs, Ok resp) =>
                   (resp = {| status_code := 200; response_json := [("status", "received")] |} /\
                    (logs = [] \/
                     (exists job_id video_url, logs = [VideoCompleted job_id; VideoURL video_url]) \/
                     (exists job_id error, logs = [VideoFailed job_id; VideoError error]))) \/
                   (resp = {| status_code := 401; response_json := [("error", "Invalid signature")] |} /\
                    logs = [InvalidSignature] /\ b = true /\ c = true)
               | (logs, Raise e) =>
                   logs = [] /\
                   ((e = UnsupportedMediaType /\ content_is_json req = false) \/
                    (e = BadRequest /\ content_is_json req = true /\ body_json req = Malformed) \/
                    (e = AttributeError /\ content_is_json req = true /\ body_json req = NotObject) \/
                    ((e = ValueError \/ e = OverflowError \/ e = TypeError) /\ b = true /\ c = true))
               end).
  { intros b c; destruct (process req) as [logs [resp|e]]; [left; exact Hp|].
    destruct Hp as [Hl He]; split; [exact Hl|].
    destruct He as [He|[He|He]]; auto. }
  unfold handle_vloex_webhook.
  destruct (truthy WEBHOOK_SECRET) eqn:Hs; [|exact (Hq _ _)].
  destruct (truthy (header_get (sig_header req) "")) eqn:Hg; [|exact (Hq _ _)].
  cbn [andb].
  destruct (verify_webhook_signature _ _ _ _ _) as [[|]|e] eqn:Hv.
  - exact (Hq true true).
  - right; auto.
  - split; [reflexivity|right; right; right].
    destruct (verify_raise _ _ _ _ _ _ Hv) as [[-> _]|[[-> _]|[-> _]]]; auto.
Qed.

End WebhookProps.
